(** * Trading monitor: risk classifiers, health status, log retention,
      position book and hold-to-confirm button

    Shallow embedding of
    - [src/components/TradingMonitor.tsx] (module [RiskPanel]): the risk
      panel with its three colour classifiers and its 3 s simulation tick;
    - the dashboard page (module [Dashboard]): positions, health, logs,
      [closePosition], the 1 s simulation tick, and the hold-to-kill
      [SafeTriggerButton] (module [SafeTriggerButton]).

    Numbers.  A TypeScript [number] is modelled as an exact rational [Q]:
    the thresholds of the code are comparisons of sums, products and
    quotients, and every concrete input used below (6.25, 0.75, 450/500,
    ...) gives the same comparison results in binary64.  [Qdiv] by zero is
    0 in Rocq while JavaScript yields an infinity or NaN, so every
    statement about a quotient carries the hypothesis that the divisor is
    not zero.  Rounding matters exactly at the breakpoints of the three
    risk classifiers, so the statements about where those breakpoints lie
    on every input are made on the binary64 numbers themselves (module
    [Binary64]), with the operations of IEEE 754 as Rocq's primitive
    floats compute them.  The one place where the code itself can
    manufacture a NaN from finite data, the read [priceHistory[7]] of a
    short array, is modelled explicitly (see [Dashboard.sample]).

    Randomness and clock.  Each [Math.random()], [Date.now()] and
    [toLocaleTimeString()] call of a handler is an explicit argument of the
    corresponding function, in the order in which the source draws them. *)

From Stdlib Require Import Floats.
From Stdlib Require Import QArith Qminmax Qabs Qround Lqa.
From Stdlib Require Import ZArith Lia Bool String List.
Import ListNotations.

#[local] Set Warnings "-inexact-float".

Local Open Scope Q_scope.

(** ** Comparisons on numbers, as booleans *)

(** [x > y] of the source. *)
Definition Qgtb (x y : Q) : bool := negb (Qle_bool x y).

(** [x >= y] of the source. *)
Definition Qgeb (x y : Q) : bool := Qle_bool y x.

(** ** Severity tiers and the colours that encode them *)

Inductive Tier : Type := NORMAL | WARNING | CRITICAL.

(** The three classifiers return a CSS colour; this is the reading of the
    colour as a tier (red, orange, green). *)
Definition colorTier (c : string) : option Tier :=
  if String.eqb c "#FF3737" then Some CRITICAL
  else if String.eqb c "#FFA500" then Some WARNING
  else if String.eqb c "#00D26A" then Some NORMAL
  else None.

(** The tier rule the specification calls shared: above 100% of the maximum,
    above 80%, otherwise.  Written from the specification's words, to be
    compared with the classifiers of the source. *)
Definition spec_tier (value max : Q) : Tier :=
  if Qgtb (value / max) 1 then CRITICAL
  else if Qgtb (value / max) 0.8 then WARNING
  else NORMAL.

(** Severity as a number, for comparing tiers. *)
Definition tierRank (t : Tier) : nat :=
  match t with NORMAL => 0 | WARNING => 1 | CRITICAL => 2 end.

Definition optRank (t : option Tier) : nat :=
  match t with Some t' => tierRank t' | None => 0 end.

(** * The risk panel, [src/components/TradingMonitor.tsx] *)

Module RiskPanel.

Inductive Switch : Type := ON | OFF.
Inductive Link : Type := CONNECTED | DISCONNECTED.

Record TradingData : Type := mkTradingData {
  algoState : Switch;
  dailyPL : Q;
  winRate : Q;
  activePositions : Q;
  pendingOrders : Q;
  currentDrawdown : Q;
  maxDrawdown : Q;
  longestPosition : Q;
  maxPositionTime : Q;
  largestPosition : Q;
  maxPositionSize : Q;
  brokerStatus : Link;
  dataFeedStatus : Link;
  lastUpdate : string
}.

(** The argument of [useState]; [now] is [new Date().toISOString()]. *)
Definition initialData (now : string) : TradingData :=
  {| algoState := ON;
     dailyPL := 2847.50;
     winRate := 73;
     activePositions := 3;
     pendingOrders := 2;
     currentDrawdown := -150;
     maxDrawdown := -500;
     longestPosition := 8;
     maxPositionTime := 15;
     largestPosition := 12;
     maxPositionSize := 20;
     brokerStatus := CONNECTED;
     dataFeedStatus := CONNECTED;
     lastUpdate := now |}.

(** The two [Math.random()] draws of one interval callback, in source
    order, and the timestamp it takes. *)
Record Draws : Type := mkDraws {
  rPL : Q;
  rDrawdown : Q;
  stamp : string
}.

(** A value [Math.random()] can return. *)
Definition unit_draw (r : Q) : Prop := 0 <= r /\ r < 1.

Definition valid_draws (d : Draws) : Prop :=
  unit_draw (rPL d) /\ unit_draw (rDrawdown d).

(** The updater passed to [setData] every 3000 ms. *)
Definition tick (d : Draws) (prev : TradingData) : TradingData :=
  {| algoState := algoState prev;
     dailyPL := dailyPL prev + (rPL d - 0.3) * 50;
     winRate := winRate prev;
     activePositions := activePositions prev;
     pendingOrders := pendingOrders prev;
     currentDrawdown :=
       Qmax (currentDrawdown prev + (rDrawdown d - 0.5) * 20)
            (maxDrawdown prev);
     maxDrawdown := maxDrawdown prev;
     longestPosition := Qmin (longestPosition prev + 0.5) 25;
     maxPositionTime := maxPositionTime prev;
     largestPosition := largestPosition prev;
     maxPositionSize := maxPositionSize prev;
     brokerStatus := brokerStatus prev;
     dataFeedStatus := dataFeedStatus prev;
     lastUpdate := stamp d |}.

(** The states the panel can be in: the initial one and every state a
    tick with admissible draws produces from one of them. *)
Inductive reachable : TradingData -> Prop :=
| reach_init : forall now, reachable (initialData now)
| reach_tick : forall d s,
    reachable s -> valid_draws d -> reachable (tick d s).

(** [n] ticks with the same draws, for concrete runs. *)
Fixpoint ticks (n : nat) (d : Draws) (s : TradingData) : TradingData :=
  match n with
  | O => s
  | S n' => ticks n' d (tick d s)
  end.

(** [Math.abs(data.currentDrawdown / data.maxDrawdown)]. *)
Definition drawdownRatio (data : TradingData) : Q :=
  Qabs (currentDrawdown data / maxDrawdown data).

Definition getDrawdownColor (data : TradingData) : string :=
  let ratio := drawdownRatio data in
  if Qgtb ratio 0.8 then "#FF3737"
  else if Qgtb ratio 0.5 then "#FFA500"
  else "#00D26A".

Definition getTimeColor (data : TradingData) : string :=
  if Qgtb (longestPosition data) (maxPositionTime data) then "#FF3737"
  else if Qgtb (longestPosition data) (maxPositionTime data * 0.8)
       then "#FFA500"
  else "#00D26A".

Definition getPositionSizeColor (data : TradingData) : string :=
  if Qgtb (largestPosition data) (maxPositionSize data) then "#FF3737"
  else if Qgtb (largestPosition data) (maxPositionSize data * 0.8)
       then "#FFA500"
  else "#00D26A".

(** Field updates used to put one (value, max) pair into a panel state. *)
Definition withDrawdown (cur mx : Q) (data : TradingData) : TradingData :=
  {| algoState := algoState data; dailyPL := dailyPL data;
     winRate := winRate data; activePositions := activePositions data;
     pendingOrders := pendingOrders data;
     currentDrawdown := cur; maxDrawdown := mx;
     longestPosition := longestPosition data;
     maxPositionTime := maxPositionTime data;
     largestPosition := largestPosition data;
     maxPositionSize := maxPositionSize data;
     brokerStatus := brokerStatus data;
     dataFeedStatus := dataFeedStatus data;
     lastUpdate := lastUpdate data |}.

Definition withTime (cur mx : Q) (data : TradingData) : TradingData :=
  {| algoState := algoState data; dailyPL := dailyPL data;
     winRate := winRate data; activePositions := activePositions data;
     pendingOrders := pendingOrders data;
     currentDrawdown := currentDrawdown data;
     maxDrawdown := maxDrawdown data;
     longestPosition := cur; maxPositionTime := mx;
     largestPosition := largestPosition data;
     maxPositionSize := maxPositionSize data;
     brokerStatus := brokerStatus data;
     dataFeedStatus := dataFeedStatus data;
     lastUpdate := lastUpdate data |}.

Definition withSize (cur mx : Q) (data : TradingData) : TradingData :=
  {| algoState := algoState data; dailyPL := dailyPL data;
     winRate := winRate data; activePositions := activePositions data;
     pendingOrders := pendingOrders data;
     currentDrawdown := currentDrawdown data;
     maxDrawdown := maxDrawdown data;
     longestPosition := longestPosition data;
     maxPositionTime := maxPositionTime data;
     largestPosition := cur; maxPositionSize := mx;
     brokerStatus := brokerStatus data;
     dataFeedStatus := dataFeedStatus data;
     lastUpdate := lastUpdate data |}.

(** The tier each classifier shows for a (value, max) pair. *)
Definition drawdownTier (cur mx : Q) : option Tier :=
  colorTier (getDrawdownColor (withDrawdown cur mx (initialData ""))).

Definition timeTier (cur mx : Q) : option Tier :=
  colorTier (getTimeColor (withTime cur mx (initialData ""))).

Definition sizeTier (cur mx : Q) : option Tier :=
  colorTier (getPositionSizeColor (withSize cur mx (initialData ""))).

(** A run of interval callbacks, one set of draws per callback, oldest
    first. *)
Definition runDraws (ds : list Draws) (s : TradingData) : TradingData :=
  fold_left (fun s d => tick d s) ds s.

(** The width of the drawdown bar, in percent:
    [Math.abs(data.currentDrawdown / data.maxDrawdown) * 100]. *)
Definition drawdownBarWidth (data : TradingData) : Q :=
  Qabs (currentDrawdown data / maxDrawdown data) * 100.

End RiskPanel.

(** * The three classifiers on binary64 numbers

    The same three functions as in [RiskPanel], on the numbers the code
    computes with.  Every operation is the IEEE 754 binary64 one: the
    quotient [currentDrawdown / maxDrawdown] and the product
    [maxPositionTime * 0.8] are rounded as they are at run time, 0.8 and
    0.5 are the doubles nearest to them, and a comparison with NaN is
    false.  Each function takes the two fields of [data] that its closure
    reads. *)

Module Binary64.

(** [x > y] of the source. *)
Definition gt (x y : float) : bool := PrimFloat.ltb y x.


(** [Math.abs(data.currentDrawdown / data.maxDrawdown)]. *)
Definition drawdownRatio (currentDrawdown maxDrawdown : float) : float :=
  PrimFloat.abs (PrimFloat.div currentDrawdown maxDrawdown).

Definition getDrawdownColor (currentDrawdown maxDrawdown : float) : string :=
  let ratio := drawdownRatio currentDrawdown maxDrawdown in
  if gt ratio 0.8%float then "#FF3737"
  else if gt ratio 0.5%float then "#FFA500"
  else "#00D26A".

Definition getTimeColor (longestPosition maxPositionTime : float) : string :=
  if gt longestPosition maxPositionTime then "#FF3737"
  else if gt longestPosition (PrimFloat.mul maxPositionTime 0.8%float)
       then "#FFA500"
  else "#00D26A".

Definition getPositionSizeColor (largestPosition maxPositionSize : float)
    : string :=
  if gt largestPosition maxPositionSize then "#FF3737"
  else if gt largestPosition (PrimFloat.mul maxPositionSize 0.8%float)
       then "#FFA500"
  else "#00D26A".

(** The tier each classifier shows for a (value, max) pair. *)
Definition drawdownTier (cur mx : float) : option Tier :=
  colorTier (getDrawdownColor cur mx).

Definition timeTier (cur mx : float) : option Tier :=
  colorTier (getTimeColor cur mx).

Definition sizeTier (cur mx : float) : option Tier :=
  colorTier (getPositionSizeColor cur mx).

End Binary64.

(** * The hold-to-kill button, [SafeTriggerButton] of the dashboard page *)

Module SafeTriggerButton.

(** The component's state: the two [useState] cells, whether the interval
    stored in [timerRef] is live, and a ghost counter of the calls of the
    [onTrigger] prop made so far. *)
Record Gate : Type := mkGate {
  progress : Q;
  isPressing : bool;
  timerActive : bool;
  triggered : nat
}.

Definition HOLD_DURATION : Q := 800.

(** The literal 50 of the source: the period of the interval, in ms, and
    the divisor in the increment [100 / (HOLD_DURATION / 50)]. *)
Definition TICK_MS : Q := 50.

(** State after mounting: the effect has run once with [isPressing] false. *)
Definition idle : Gate :=
  {| progress := 0; isPressing := false; timerActive := false;
     triggered := 0 |}.

(** [if (timerRef.current) clearInterval(timerRef.current)]. *)
Definition clearTimer (g : Gate) : Gate :=
  {| progress := progress g; isPressing := isPressing g;
     timerActive := false; triggered := triggered g |}.

(** The [useEffect] with dependencies [isPressing, onTrigger]: the cleanup
    of the previous run, then the body. *)
Definition effect (g : Gate) : Gate :=
  let g := clearTimer g in
  if isPressing g then
    {| progress := progress g; isPressing := true;
       timerActive := true; triggered := triggered g |}
  else
    {| progress := 0; isPressing := false;
       timerActive := false; triggered := triggered g |}.

(** [startPress]: [setIsPressing(true)]; React re-runs the effect only
    when the value of [isPressing] changed. *)
Definition startPress (g : Gate) : Gate :=
  if isPressing g then g
  else effect {| progress := progress g; isPressing := true;
                 timerActive := timerActive g; triggered := triggered g |}.

(** [endPress]: [setIsPressing(false); setProgress(0); clearInterval]. *)
Definition endPress (g : Gate) : Gate :=
  let g' := {| progress := 0; isPressing := false;
               timerActive := false; triggered := triggered g |} in
  if isPressing g then effect g' else g'.

(** One firing of the interval callback, the updater given to
    [setProgress]; a cleared interval does not fire. *)
Definition intervalTick (g : Gate) : Gate :=
  if timerActive g then
    if Qgeb (progress g) 100 then
      {| progress := 0; isPressing := isPressing g;
         timerActive := false; triggered := S (triggered g) |}
    else
      {| progress := progress g + 100 / (HOLD_DURATION / TICK_MS);
         isPressing := isPressing g;
         timerActive := true; triggered := triggered g |}
  else g.

(** What can happen to a mounted button: the pointer goes down
    ([onMouseDown], [onTouchStart]), it goes up or leaves ([onMouseUp],
    [onMouseLeave], [onTouchEnd]), the interval fires, or the parent
    re-renders and passes a new [onTrigger] closure, which re-runs the
    effect. *)
Inductive Event : Type := Press | Release | Tick | Rerender.

Definition step (g : Gate) (e : Event) : Gate :=
  match e with
  | Press => startPress g
  | Release => endPress g
  | Tick => intervalTick g
  | Rerender => effect g
  end.

Definition run (g : Gate) (evs : list Event) : Gate :=
  fold_left step evs g.

(** The progress bar stays strictly below 100% in the current state and
    after every event of [evs]. *)
Fixpoint below_full (g : Gate) (evs : list Event) : bool :=
  negb (Qgeb (progress g) 100) &&
  match evs with
  | [] => true
  | e :: evs' => below_full (step g e) evs'
  end.

(** A hold of [n] interval periods without interruption, from [g]. *)
Definition hold (n : nat) (g : Gate) : Gate :=
  run g (Press :: repeat Tick n).

(** Milliseconds elapsed after [n] firings of the interval. *)
Definition elapsed (n : nat) : Q := inject_Z (Z.of_nat n) * TICK_MS.

(** The text on the button: [progress > 0 ? activeLabel : label]. *)
Definition buttonLabel (label activeLabel : string) (g : Gate) : string :=
  if Qgtb (progress g) 0 then activeLabel else label.

(** Number of firings of the interval among [evs]. *)
Fixpoint countTicks (evs : list Event) : nat :=
  match evs with
  | [] => 0
  | Tick :: evs' => S (countTicks evs')
  | _ :: evs' => countTicks evs'
  end.

(** The events of a hold that is not released: firings and parent
    re-renders. *)
Definition tickOrRerender (e : Event) : bool :=
  match e with Tick | Rerender => true | _ => false end.

(** The events of a hold during which the parent does not re-render:
    firings and further pointer-down events. *)
Definition tickOrPress (e : Event) : bool :=
  match e with Tick | Press => true | _ => false end.

(** What every event preserves: the bar shows a whole number of
    increments, at most 16, and a button that is not pressed is at rest. *)
Definition gate_inv (g : Gate) : Prop :=
  (exists k : nat, (k <= 16)%nat /\
                   progress g == 6.25 * inject_Z (Z.of_nat k)) /\
  (isPressing g = false -> progress g = 0 /\ timerActive g = false).

End SafeTriggerButton.

(** * The dashboard page: positions, health, logs *)

Module Dashboard.

Inductive Side : Type := LONG | SHORT.
Inductive Level : Type := INFO | WARN | CRIT.
Inductive Status : Type := ALIVE | DEGRADED | HALTED.

(** An element of [priceHistory]; [None] is NaN. *)
Definition sample : Type := option Q.

Record Position : Type := mkPosition {
  id : string;
  symbol : string;
  side : Side;
  pnl : Q;
  entryPrice : Q;
  markPrice : Q;
  zScore : Q;
  durationMinutes : Q;
  maxDurationMinutes : Q;
  priceHistory : list sample
}.

(** [LogMessage]; its [id] field is [msgId] here, [id] being taken by
    [Position]. *)
Record LogMessage : Type := mkLogMessage {
  msgId : Z;
  timestamp : string;
  level : Level;
  message : string
}.

Record Health : Type := mkHealth {
  latencyMs : Q;
  apiRequestsRemaining : Q;
  apiLimitMax : Q;
  memoryUsageMB : Q;
  totalMemoryMB : Q;
  status : Status
}.

Record DashboardData : Type := mkDashboardData {
  dailyPnL : Q;
  winRate : Q;
  health : Health;
  positions : list Position;
  logs : list LogMessage
}.

Definition hist (l : list Q) : list sample := map Some l.

(** The argument of [useState]; [t1], [t2] are the two
    [toLocaleTimeString()] results. *)
Definition initialData (t1 t2 : string) : DashboardData :=
  {| dailyPnL := 1240.50;
     winRate := 68;
     health :=
       {| latencyMs := 45; apiRequestsRemaining := 1850;
          apiLimitMax := 2000; memoryUsageMB := 450;
          totalMemoryMB := 1024; status := ALIVE |};
     positions :=
       [ {| id := "1"; symbol := "BTC/USD"; side := LONG; pnl := 450.00;
            entryPrice := 64000; markPrice := 64500; zScore := -2.4;
            durationMinutes := 14; maxDurationMinutes := 45;
            priceHistory :=
              hist [64000; 63950; 63900; 64100; 64200; 64150; 64300;
                    64500] |};
         {| id := "2"; symbol := "ETH/USD"; side := SHORT;
            pnl := -120.50;
            entryPrice := 3400; markPrice := 3420; zScore := 1.8;
            durationMinutes := 180; maxDurationMinutes := 60;
            priceHistory :=
              hist [3400; 3390; 3380; 3410; 3415; 3425; 3420; 3420] |};
         {| id := "3"; symbol := "SOL/USD"; side := LONG; pnl := 85.20;
            entryPrice := 145; markPrice := 148; zScore := -1.1;
            durationMinutes := 5; maxDurationMinutes := 45;
            priceHistory :=
              hist [145; 144; 146; 145; 147; 146; 147; 148] |} ];
     logs :=
       [ {| msgId := 1; timestamp := t1; level := INFO;
            message := "System initialized" |};
         {| msgId := 2; timestamp := t2; level := INFO;
            message := "Connected to Kraken WS" |} ] |}.

(** [closePosition(id, symbol)]; [now] is [Date.now()], [clock] is
    [new Date().toLocaleTimeString()].  The function returns nothing. *)
Definition closePosition (id0 symbol0 : string) (now : Z) (clock : string)
    (prev : DashboardData) : DashboardData :=
  {| dailyPnL := dailyPnL prev;
     winRate := winRate prev;
     health := health prev;
     positions :=
       filter (fun p => negb (String.eqb (id p) id0)) (positions prev);
     logs :=
       logs prev ++
       [ {| msgId := now; timestamp := clock; level := WARN;
            message :=
              ("MANUAL LIQUIDATION: " ++ symbol0 ++ " CLOSED")%string |} ]
  |}.

(** The draws of one run of the 1000 ms interval callback, in source
    order: latency, P&L, the log gate, the message index, the clock
    reads of the pushed entry, and for the position at index [i] the
    pair (P&L draw, price draw). *)
Record Draws : Type := mkDraws {
  rLatency : Q;
  rPnL : Q;
  rLog : Q;
  rMsg : Q;
  now : Z;
  clock : string;
  rPos : nat -> Q * Q
}.

Definition unit_draw (r : Q) : Prop := 0 <= r /\ r < 1.

Definition msgs : list string :=
  ["Order Book Update"; "Latency Spike"; "Garbage Collection";
   "Strategy Heartbeat"]%string.

(** [msgs[Math.floor(r * msgs.length)]]; the index is 0..3 for every
    draw in [0, 1). *)
Definition pickMsg (r : Q) : string :=
  nth (Z.to_nat (Qfloor (r * 4))) msgs "undefined"%string.

(** [newLogs.push(e); if (newLogs.length > 50) newLogs.shift()]. *)
Definition pushShift (l : list LogMessage) (e : LogMessage)
    : list LogMessage :=
  let pushed := l ++ [e] in
  if (50 <? length pushed)%nat then tl pushed else pushed.

(** The log after one tick. *)
Definition tickLogs (d : Draws) (l : list LogMessage) : list LogMessage :=
  if Qgtb (rLog d) 0.9 then
    pushShift l {| msgId := now d; timestamp := clock d; level := INFO;
                   message := pickMsg (rMsg d) |}
  else l.

(** [pos.priceHistory[7] + delta]: NaN when the array has no finite
    element at index 7. *)
Definition nextSample (h : list sample) (delta : Q) : sample :=
  match nth_error h 7 with
  | Some (Some x) => Some (x + delta)
  | _ => None
  end.

(** The object built for one position by the [map] callback. *)
Definition tickPosition (r : Q * Q) (pos : Position) : Position :=
  {| id := id pos;
     symbol := symbol pos;
     side := side pos;
     pnl := pnl pos + (fst r - 0.5) * 10;
     entryPrice := entryPrice pos;
     markPrice := markPrice pos;
     zScore := zScore pos;
     durationMinutes := durationMinutes pos;
     maxDurationMinutes := maxDurationMinutes pos;
     priceHistory :=
       tl (priceHistory pos) ++
       [nextSample (priceHistory pos) ((snd r - 0.5) * 10)] |}.

(** [Array.prototype.map] with the element's index at hand. *)
Fixpoint mapi {A B : Type} (f : nat -> A -> B) (i : nat) (l : list A)
    : list B :=
  match l with
  | [] => []
  | x :: l' => f i x :: mapi f (S i) l'
  end.

(** [Math.max(20, Math.floor(prev.health.latencyMs + (r - 0.5) * 40))]. *)
Definition newLatency (d : Draws) (h : Health) : Q :=
  Qmax 20 (inject_Z (Qfloor (latencyMs h + (rLatency d - 0.5) * 40))).

(** The [health] object one tick builds from [prev.health]. *)
Definition tickHealth (d : Draws) (h : Health) : Health :=
  {| latencyMs := newLatency d h;
     apiRequestsRemaining := Qmax 0 (apiRequestsRemaining h - 1);
     apiLimitMax := apiLimitMax h;
     memoryUsageMB := memoryUsageMB h;
     totalMemoryMB := totalMemoryMB h;
     status := if Qgtb (newLatency d h) 300 then DEGRADED else ALIVE |}.

(** The updater passed to [setData] every 1000 ms. *)
Definition tick (d : Draws) (prev : DashboardData) : DashboardData :=
  let newPnL := dailyPnL prev + (rPnL d - 0.45) * 50 in
  {| dailyPnL := newPnL;
     winRate := winRate prev;
     health := tickHealth d (health prev);
     positions :=
       mapi (fun i pos => tickPosition (rPos d i) pos) 0 (positions prev);
     logs := tickLogs d (logs prev) |}.

(** The card of one position: the stale flag and the width, in percent,
    of its progress bar. *)
Definition isStale (pos : Position) : bool :=
  Qgtb (durationMinutes pos) (maxDurationMinutes pos).

Definition progress (pos : Position) : Q :=
  Qmin 100 (durationMinutes pos / maxDurationMinutes pos * 100).

(** The two writers of the log. *)
Inductive LogOp : Type :=
| TickAppend (d : Draws)
| Liquidate (id0 symbol0 : string) (now : Z) (clock : string).

Definition applyOp (s : DashboardData) (op : LogOp) : DashboardData :=
  match op with
  | TickAppend d => tick d s
  | Liquidate i sy n c => closePosition i sy n c s
  end.

Definition applyOps (s : DashboardData) (ops : list LogOp)
    : DashboardData :=
  fold_left applyOp ops s.

(** [n] consecutive ticks with the same draws, for concrete runs. *)
Fixpoint ticks (n : nat) (d : Draws) (s : DashboardData) : DashboardData :=
  match n with
  | O => s
  | S n' => ticks n' d (tick d s)
  end.

(** The health after [n] such ticks. *)
Fixpoint healthTicks (n : nat) (d : Draws) (h : Health) : Health :=
  match n with
  | O => h
  | S n' => healthTicks n' d (tickHealth d h)
  end.

(** Draws of an uneventful tick: latency and prices stay where they are
    and the log gate (0.5 > 0.9) stays shut. *)
Definition quiet : Draws :=
  {| rLatency := 0.5; rPnL := 0.5; rLog := 0.5; rMsg := 0.5;
     now := 1700000000000; clock := "12:00:00";
     rPos := fun _ => (0.5, 0.5) |}.

(** The same tick with the log gate open (0.95 > 0.9). *)
Definition chatty : Draws :=
  {| rLatency := 0.5; rPnL := 0.5; rLog := 0.95; rMsg := 0.5;
     now := 1700000000000; clock := "12:00:00";
     rPos := fun _ => (0.5, 0.5) |}.

(** The last [n] elements of a list, oldest first. *)
Definition lastn {A : Type} (n : nat) (l : list A) : list A :=
  skipn (length l - n) l.

(** A run of interval callbacks, one set of draws per callback, oldest
    first. *)
Definition runTicks (ds : list Draws) (s : DashboardData) : DashboardData :=
  fold_left (fun s d => tick d s) ds s.

(** Whether the callback with draws [d] pushes a log entry, and the entry
    it pushes. *)
Definition logGate (d : Draws) : bool := Qgtb (rLog d) 0.9.

Definition tickEntry (d : Draws) : LogMessage :=
  {| msgId := now d; timestamp := clock d; level := INFO;
     message := pickMsg (rMsg d) |}.

(** The entry [closePosition] appends. *)
Definition closeEntry (symbol0 : string) (t : Z) (c : string) : LogMessage :=
  {| msgId := t; timestamp := c; level := WARN;
     message := ("MANUAL LIQUIDATION: " ++ symbol0 ++ " CLOSED")%string |}.

(** Number of liquidations among [ops]. *)
Fixpoint countLiquidations (ops : list LogOp) : nat :=
  match ops with
  | [] => 0
  | Liquidate _ _ _ _ :: ops' => S (countLiquidations ops')
  | TickAppend _ :: ops' => countLiquidations ops'
  end.

(** A price history as the initial state has them: eight samples, none
    of them NaN. *)
Definition finite8 (h : list sample) : bool :=
  (length h =? 8)%nat &&
  forallb (fun x => match x with Some _ => true | None => false end) h.

(** [StatusDot]: the colour of the health light for a status string. *)
Definition StatusDot (status : string) : string :=
  if String.eqb status "ALIVE" then "#00D26A"
  else if String.eqb status "DEGRADED" then "#FFA500"
  else "#FF3737".

(** The string a [Status] is in the source. *)
Definition statusName (st : Status) : string :=
  match st with
  | ALIVE => "ALIVE"
  | DEGRADED => "DEGRADED"
  | HALTED => "HALTED"
  end.

(** The latency figure is green below 100 ms and red otherwise:
    [latencyMs < 100 ? 'text-green-500' : 'text-red-500']. *)
Definition latencyClass (h : Health) : string :=
  if Qgtb 100 (latencyMs h) then "text-green-500" else "text-red-500".

(** [data.logs[data.logs.length - 1]]. *)
Definition lastLog (l : list LogMessage) : option LogMessage :=
  nth_error l (length l - 1).

(** The handle of the log drawer pulses yellow when
    [logs.length > 0 && logs[logs.length - 1].level === 'WARN']. *)
Definition drawerWarn (s : DashboardData) : bool :=
  (0 <? length (logs s))%nat &&
  match lastLog (logs s) with
  | Some e => match level e with WARN => true | _ => false end
  | None => false
  end.

(** The one line the closed drawer shows. *)
Definition drawerLine (s : DashboardData) : string :=
  if (0 <? length (logs s))%nat then
    match lastLog (logs s) with
    | Some e => ("> [" ++ timestamp e ++ "] " ++ message e)%string
    | None => "> System Ready"%string
    end
  else "> System Ready"%string.

(** [Sparkline]: the points of the polyline, as (x, y) pairs.
    [Math.min(...data)] and [Math.max(...data)] are folds over a non-empty
    array; an empty array maps to no point.  [max - min || 1] replaces a
    zero range by 1.  The x coordinate divides by [data.length - 1]. *)
Definition sparkMin (v0 : Q) (rest : list Q) : Q := fold_left Qmin rest v0.

Definition sparkMax (v0 : Q) (rest : list Q) : Q := fold_left Qmax rest v0.

Definition sparkRange (mn mx : Q) : Q :=
  if Qeq_bool (mx - mn) 0 then 1 else mx - mn.

Definition sparkPoints (data : list Q) : list (Q * Q) :=
  match data with
  | [] => []
  | v0 :: rest =>
      let mn := sparkMin v0 rest in
      let mx := sparkMax v0 rest in
      let range := sparkRange mn mx in
      mapi (fun i val =>
              (inject_Z (Z.of_nat i)
               / (inject_Z (Z.of_nat (length data)) - 1) * 100,
               30 - (val - mn) / range * 30))
           0 data
  end.

(** The class of a card's bar: [isStale ? 'bg-red-500' : 'bg-gray-600']. *)
Definition barClass (pos : Position) : string :=
  if isStale pos then "bg-red-500" else "bg-gray-600".

(** The reading of the bar's class as a tier: red is stale, grey is not. *)
Definition barTier (c : string) : option Tier :=
  if String.eqb c "bg-red-500" then Some CRITICAL
  else if String.eqb c "bg-gray-600" then Some NORMAL
  else None.

(** The position of the specification's scenario,
    [{id: "1", durationMinutes, maxDurationMinutes: 45}], its other fields
    those of the first initial position. *)
Definition scenarioPosition (duration : Q) : Position :=
  {| id := "1"; symbol := "BTC/USD"; side := LONG; pnl := 450.00;
     entryPrice := 64000; markPrice := 64500; zScore := -2.4;
     durationMinutes := duration; maxDurationMinutes := 45;
     priceHistory :=
       hist [64000; 63950; 63900; 64100; 64200; 64150; 64300; 64500] |}.

End Dashboard.

(** * Properties *)

Lemma Qgtb_iff (x y : Q) : Qgtb x y = true <-> y < x.
Proof.
  unfold Qgtb. rewrite negb_true_iff, <- not_true_iff_false, Qle_bool_iff.
  split; [apply Qnot_le_lt | apply Qlt_not_le].
Qed.

Lemma Qgtb_false_iff (x y : Q) : Qgtb x y = false <-> x <= y.
Proof.
  unfold Qgtb. rewrite negb_false_iff. apply Qle_bool_iff.
Qed.

Lemma Qgeb_iff (x y : Q) : Qgeb x y = true <-> y <= x.
Proof. apply Qle_bool_iff. Qed.

Lemma Qgeb_false_iff (x y : Q) : Qgeb x y = false <-> x < y.
Proof.
  unfold Qgeb. rewrite <- not_true_iff_false, Qle_bool_iff.
  split; [apply Qnot_le_lt | apply Qlt_not_le].
Qed.


(** Case analysis on a comparison of the source, leaving the order fact. *)
Ltac cmp_cases :=
  repeat match goal with
  | |- context [Qgtb ?a ?b] =>
      let E := fresh "E" in
      destruct (Qgtb a b) eqn:E;
      [apply Qgtb_iff in E | apply Qgtb_false_iff in E]
  | |- context [Qgeb ?a ?b] =>
      let E := fresh "E" in
      destruct (Qgeb a b) eqn:E;
      [apply Qgeb_iff in E | apply Qgeb_false_iff in E]
  end.

(** ** The classifiers of the risk panel *)

(** The threshold cascade shared, textually, by the time and the size
    classifier. *)
Lemma cascade_tiers (v m : Q) :
  let t := colorTier (if Qgtb v m then "#FF3737"
                      else if Qgtb v (m * 0.8) then "#FFA500"
                      else "#00D26A") in
  (t = Some CRITICAL <-> m < v) /\
  (t = Some WARNING <-> m * 0.8 < v /\ v <= m) /\
  (t = Some NORMAL <-> v <= m /\ v <= m * 0.8).
Proof.
  cbv zeta. cmp_cases; cbn; repeat split; intros; try discriminate;
    try reflexivity; try lra; exfalso; lra.
Qed.

(** The specification's rule, spelled out as the three equivalences. *)
Lemma spec_tier_iff (value max : Q) :
  (spec_tier value max = CRITICAL <-> 1 < value / max) /\
  (spec_tier value max = WARNING
     <-> 0.8 < value / max /\ value / max <= 1) /\
  (spec_tier value max = NORMAL <-> value / max <= 0.8).
Proof.
  unfold spec_tier. generalize (value / max). intros r.
  cmp_cases; repeat split; intros; try discriminate; try reflexivity;
    try assumption; try lra; exfalso; lra.
Qed.


(** ** The classifiers on binary64 numbers *)










(** Why the 80% boundary of the time and size classifiers is the rounded
    product and not the ratio: at value 2.4000000000000004 of max 3 the
    ratio value / max is above 0.8, yet the value is not above max * 0.8,
    which rounds to 2.4000000000000004, and the tier is NORMAL. *)
Lemma boundary_is_the_rounded_product :
  Binary64.gt (PrimFloat.div 2.4000000000000004 3) 0.8 = true /\
  PrimFloat.mul 3 0.8 = 2.4000000000000004%float /\
  Binary64.timeTier 2.4000000000000004 3 = Some NORMAL /\
  Binary64.sizeTier 2.4000000000000004 3 = Some NORMAL.
Proof. repeat split. Qed.

(** The disagreement of the drawdown classifier with the other two, on the
    binary64 numbers: at 450 of 500 it answers CRITICAL, they answer
    WARNING. *)
Lemma classifiers_disagree_binary64 :
  Binary64.drawdownRatio 450 500 = 0.9%float /\
  Binary64.drawdownTier 450 500 = Some CRITICAL /\
  PrimFloat.mul 500 0.8 = 400%float /\
  Binary64.timeTier 450 500 = Some WARNING /\
  Binary64.sizeTier 450 500 = Some WARNING.
Proof. repeat split. Qed.


(** The drawdown classifier where the rounded ratio and the exact one
    part: -0.024 of -0.03 has the computed ratio 0.8 and is WARNING,
    -0.56 of -0.7 has the computed ratio 0.8000000000000002 and is
    CRITICAL. *)
Lemma drawdown_ratio_is_rounded :
  Binary64.drawdownRatio (-0.024) (-0.03) = 0.8%float /\
  Binary64.drawdownTier (-0.024) (-0.03) = Some WARNING /\
  Binary64.drawdownRatio (-0.56) (-0.7) = 0.8000000000000002%float /\
  Binary64.drawdownTier (-0.56) (-0.7) = Some CRITICAL.
Proof. repeat split. Qed.

(** ** Staleness of a position *)

(** C7, as the code has it: the card of a position with
    maxDurationMinutes > 0 shows staleness in two states only: stale (red
    bar) exactly when durationMinutes > maxDurationMinutes, not stale
    (grey bar) otherwise; no position is shown as WARNING.  The bar's
    width in percent is min(100, duration / limit * 100), at most 100 and
    exactly 100 for a stale position.  Duration 40 of 45 is not stale,
    46 of 45 is stale. *)
Theorem C7_card_staleness (pos : Dashboard.Position) :
  0 < Dashboard.maxDurationMinutes pos ->
  (Dashboard.isStale pos = true
     <-> Dashboard.maxDurationMinutes pos < Dashboard.durationMinutes pos) /\
  (Dashboard.barTier (Dashboard.barClass pos) = Some CRITICAL
     <-> Dashboard.maxDurationMinutes pos < Dashboard.durationMinutes pos) /\
  (Dashboard.barTier (Dashboard.barClass pos) = Some NORMAL
     <-> Dashboard.durationMinutes pos <= Dashboard.maxDurationMinutes pos) /\
  Dashboard.barTier (Dashboard.barClass pos) <> Some WARNING /\
  Dashboard.progress pos
    == Qmin 100 (Dashboard.durationMinutes pos
                 / Dashboard.maxDurationMinutes pos * 100) /\
  Dashboard.progress pos <= 100 /\
  (Dashboard.isStale pos = true -> Dashboard.progress pos == 100) /\
  Dashboard.isStale (Dashboard.scenarioPosition 40) = false /\
  Dashboard.isStale (Dashboard.scenarioPosition 46) = true.
Proof.
  intros Hm.
  split; [apply Qgtb_iff|].
  unfold Dashboard.barClass, Dashboard.isStale.
  split; [|split; [|split]].
  - cmp_cases; cbn; split; intros; try discriminate; try reflexivity;
      try assumption; exfalso; lra.
  - cmp_cases; cbn; split; intros; try discriminate; try reflexivity;
      try assumption; exfalso; lra.
  - cmp_cases; cbn; discriminate.
  - split; [reflexivity|]. split; [apply Q.le_min_l|].
    split; [|split; reflexivity].
    intros Hs. apply Qgtb_iff in Hs. unfold Dashboard.progress.
    assert (Hq : 1 <= Dashboard.durationMinutes pos
                      / Dashboard.maxDurationMinutes pos).
    { apply Qle_shift_div_l; [exact Hm | lra]. }
    apply Q.min_l. revert Hq.
    generalize (Dashboard.durationMinutes pos
                / Dashboard.maxDurationMinutes pos).
    intros q Hq. lra.
Qed.

Lemma C7_card_staleness_witness :
  0 < Dashboard.maxDurationMinutes (Dashboard.scenarioPosition 46) /\
  Dashboard.barTier (Dashboard.barClass (Dashboard.scenarioPosition 46))
    = Some CRITICAL /\
  Dashboard.progress (Dashboard.scenarioPosition 46) == 100.
Proof.
  assert (Hm : 0 < Dashboard.maxDurationMinutes
                     (Dashboard.scenarioPosition 46)) by reflexivity.
  split; [exact Hm|].
  destruct (C7_card_staleness (Dashboard.scenarioPosition 46) Hm)
    as (_ & Hc & _ & _ & _ & _ & Hp & _).
  split; [apply Hc; reflexivity | apply Hp; reflexivity].
Defined.

(** C7 as stated fails: the claim's rule puts duration 40 of 45 in
    WARNING and 5 of 45 in NORMAL, but the card of the position with
    duration 40 of 45 is not stale and shows the same grey bar as the one
    with duration 5: a position has no WARNING state. *)
Lemma C7_card_has_no_warning :
  0 < Dashboard.maxDurationMinutes (Dashboard.scenarioPosition 40) /\
  spec_tier 40 45 = WARNING /\
  spec_tier 5 45 = NORMAL /\
  Dashboard.isStale (Dashboard.scenarioPosition 40) = false /\
  Dashboard.barClass (Dashboard.scenarioPosition 40) = "bg-gray-600"%string /\
  Dashboard.barTier (Dashboard.barClass (Dashboard.scenarioPosition 40))
    <> Some WARNING /\
  Dashboard.barClass (Dashboard.scenarioPosition 40)
    = Dashboard.barClass (Dashboard.scenarioPosition 5).
Proof.
  repeat split; try reflexivity; vm_compute; discriminate.
Qed.

(** ** The drawdown floor of the risk panel *)

Lemma reachable_ticks (n : nat) (d : RiskPanel.Draws)
    (s : RiskPanel.TradingData) :
  RiskPanel.valid_draws d ->
  RiskPanel.reachable s -> RiskPanel.reachable (RiskPanel.ticks n d s).
Proof.
  intros Hd. revert s.
  induction n as [|n IH]; intros s Hs; cbn.
  - exact Hs.
  - apply IH. now constructor.
Qed.

(** One tick never changes the configured maximum and leaves the current
    drawdown at or above it, whatever the draw. *)
Lemma tick_drawdown_floor (d : RiskPanel.Draws) (s : RiskPanel.TradingData) :
  RiskPanel.maxDrawdown (RiskPanel.tick d s) = RiskPanel.maxDrawdown s /\
  RiskPanel.maxDrawdown (RiskPanel.tick d s)
    <= RiskPanel.currentDrawdown (RiskPanel.tick d s).
Proof.
  split; [reflexivity|]. cbn. apply Q.le_max_r.
Qed.

Lemma ratio_le_1 (s : RiskPanel.TradingData) :
  RiskPanel.maxDrawdown s = -500 ->
  RiskPanel.maxDrawdown s <= RiskPanel.currentDrawdown s ->
  RiskPanel.currentDrawdown s <= 0 ->
  RiskPanel.drawdownRatio s <= 1.
Proof.
  unfold RiskPanel.drawdownRatio. intros Hmd Hle Hneg.
  rewrite Hmd in *. apply Qabs_Qle_condition.
  unfold Qdiv. change (/ -500) with (-1 # 500).
  split; lra.
Qed.

(** C10, as the code has it: in every state reachable from the initial
    one by ticks, maxDrawdown is -500 and currentDrawdown is at or above
    it, because each tick clamps the new drawdown from below at
    maxDrawdown; consequently the ratio |currentDrawdown / maxDrawdown|
    is at most 1 whenever currentDrawdown is negative or zero.  Nothing
    bounds currentDrawdown from above. *)
Theorem C10_drawdown_floor (s : RiskPanel.TradingData) :
  RiskPanel.reachable s ->
  RiskPanel.maxDrawdown s = -500 /\
  RiskPanel.maxDrawdown s <= RiskPanel.currentDrawdown s /\
  (RiskPanel.currentDrawdown s <= 0 -> RiskPanel.drawdownRatio s <= 1).
Proof.
  intros Hr.
  assert (H : RiskPanel.maxDrawdown s = -500 /\
              RiskPanel.maxDrawdown s <= RiskPanel.currentDrawdown s).
  { induction Hr as [now|d s Hr IH Hd].
    - split; [reflexivity | vm_compute; discriminate].
    - destruct IH as [IH _].
      destruct (tick_drawdown_floor d s) as [Heq Hle].
      split; [now rewrite Heq | exact Hle]. }
  destruct H as [Hmd Hle].
  split; [exact Hmd|]. split; [exact Hle|].
  now apply ratio_le_1.
Qed.

Lemma C10_drawdown_floor_witness :
  let d := {| RiskPanel.rPL := 0.5; RiskPanel.rDrawdown := 0.25;
              RiskPanel.stamp := "t1" |} in
  let s := RiskPanel.tick d (RiskPanel.initialData "t0") in
  RiskPanel.reachable s /\
  RiskPanel.maxDrawdown s <= RiskPanel.currentDrawdown s /\
  RiskPanel.drawdownRatio s <= 1.
Proof.
  intros d s.
  assert (Hr : RiskPanel.reachable s).
  { apply RiskPanel.reach_tick; [apply RiskPanel.reach_init|].
    repeat split; vm_compute; discriminate || reflexivity. }
  split; [exact Hr|].
  destruct (C10_drawdown_floor s Hr) as (_ & Hle & Hratio).
  split; [exact Hle|].
  apply Hratio. vm_compute. discriminate.
Defined.

(** C10 as stated fails: 131 ticks that each draw 0.75 lead from the
    initial state to currentDrawdown = 505, a reachable state whose
    drawdown is positive and whose ratio 1.01 exceeds 1. *)
Lemma C10_ratio_exceeds_one :
  let d := {| RiskPanel.rPL := 0.5; RiskPanel.rDrawdown := 0.75;
              RiskPanel.stamp := "t" |} in
  let s := RiskPanel.ticks 131 d (RiskPanel.initialData "t0") in
  RiskPanel.reachable s /\
  RiskPanel.currentDrawdown s == 505 /\
  ~ RiskPanel.currentDrawdown s <= 0 /\
  1 < RiskPanel.drawdownRatio s.
Proof.
  intros d s. split.
  - apply reachable_ticks; [|apply RiskPanel.reach_init].
    repeat split; vm_compute; discriminate || reflexivity.
  - split; [vm_compute; reflexivity|].
    split; [|vm_compute; reflexivity].
    intros H. vm_compute in H. apply H. reflexivity.
Qed.

(** ** The hold-to-kill button *)

Section Button.

Import SafeTriggerButton.

(** The increment of one interval period: 100 / (800 / 50) = 6.25. *)
Lemma step_size : 100 / (HOLD_DURATION / TICK_MS) == 6.25.
Proof. reflexivity. Qed.

Lemma effect_triggered (g : Gate) : triggered (effect g) = triggered g.
Proof. unfold effect. cbn. now destruct (isPressing g). Qed.

Lemma startPress_triggered (g : Gate) :
  triggered (startPress g) = triggered g.
Proof.
  unfold startPress. destruct (isPressing g); [reflexivity|].
  now rewrite effect_triggered.
Qed.

(** After [endPress] the button is back at rest, whatever it was doing. *)
Lemma endPress_state (g : Gate) :
  endPress g = {| progress := 0; isPressing := false;
                  timerActive := false; triggered := triggered g |}.
Proof. unfold endPress, effect. now destruct (isPressing g). Qed.

(** An event that finds the bar below 100% does not call [onTrigger]. *)
Lemma step_below_full (g : Gate) (e : Event) :
  Qgeb (progress g) 100 = false ->
  triggered (step g e) = triggered g.
Proof.
  intros Hlt. destruct e; cbn.
  - apply startPress_triggered.
  - now rewrite endPress_state.
  - unfold intervalTick. rewrite Hlt. now destruct (timerActive g).
  - apply effect_triggered.
Qed.

Lemma below_full_run (evs : list Event) :
  forall g, below_full g evs = true ->
            triggered (run g evs) = triggered g /\
            Qgeb (progress (run g evs)) 100 = false.
Proof.
  induction evs as [|e evs IH]; intros g H; cbn in H;
    apply andb_true_iff in H; destruct H as [Hg Hrest];
    apply negb_true_iff in Hg.
  - now split.
  - destruct (IH _ Hrest) as [Ht Hp].
    change (run g (e :: evs)) with (run (step g e) evs).
    split; [|exact Hp].
    rewrite Ht. now apply step_below_full.
Qed.

Lemma inject_S (n : nat) :
  inject_Z (Z.of_nat (S n)) == inject_Z (Z.of_nat n) + 1.
Proof. rewrite Nat2Z.inj_succ, <- Z.add_1_r, inject_Z_plus. reflexivity. Qed.

(** While the bar has not been full before any of [n] consecutive
    firings, each of them adds one increment and none calls
    [onTrigger]. *)
Lemma ticks_climb (n : nat) :
  forall g,
    timerActive g = true ->
    progress g + 6.25 * inject_Z (Z.of_nat n) < 100 + 6.25 ->
    let g' := run g (repeat Tick n) in
    progress g' == progress g + 6.25 * inject_Z (Z.of_nat n) /\
    triggered g' = triggered g /\
    timerActive g' = (timerActive g || Nat.eqb n 0) /\
    isPressing g' = isPressing g.
Proof.
  induction n as [|n IH]; intros g Ha Hb; cbn zeta.
  - cbn. rewrite Ha. repeat split; try reflexivity. ring.
  - rewrite inject_S in Hb.
    assert (Hn : 0 <= inject_Z (Z.of_nat n)).
    { change 0 with (inject_Z 0). rewrite <- Zle_Qle. lia. }
    assert (Hlt : Qgeb (progress g) 100 = false).
    { apply Qgeb_false_iff. lra. }
    change (run g (repeat Tick (S n)))
      with (run (intervalTick g) (repeat Tick n)).
    set (g1 := {| progress := progress g + 100 / (HOLD_DURATION / TICK_MS);
                  isPressing := isPressing g; timerActive := true;
                  triggered := triggered g |}).
    assert (Hg1 : intervalTick g = g1).
    { unfold intervalTick. now rewrite Ha, Hlt. }
    rewrite Hg1.
    assert (Hp1 : progress g1 == progress g + 6.25).
    { unfold g1; cbn [progress]. rewrite step_size. reflexivity. }
    destruct (IH g1 eq_refl) as (Hp & Ht & Hact & Hpr).
    { rewrite Hp1. lra. }
    repeat split.
    + rewrite Hp, Hp1, inject_S. ring.
    + exact Ht.
    + rewrite Hact, Ha. reflexivity.
    + exact Hpr.
Qed.

(** A cleared interval never fires. *)
Lemma ticks_inactive (n : nat) (g : Gate) :
  timerActive g = false -> run g (repeat Tick n) = g.
Proof.
  intros Ha. induction n as [|n IH]; [reflexivity|].
  change (run g (repeat Tick (S n)))
    with (run (intervalTick g) (repeat Tick n)).
  unfold intervalTick. rewrite Ha. exact IH.
Qed.

Lemma run_app (g : Gate) (l1 l2 : list Event) :
  run g (l1 ++ l2) = run (run g l1) l2.
Proof. apply fold_left_app. Qed.

(** The course of an uninterrupted hold from rest: the bar shows
    6.25% per elapsed period up to the 16th, the 17th firing calls
    [onTrigger] and clears the interval, and nothing fires after that. *)
Lemma hold_course (n : nat) :
  ((n <= 16)%nat ->
     progress (hold n idle) == 6.25 * inject_Z (Z.of_nat n) /\
     triggered (hold n idle) = 0%nat) /\
  ((17 <= n)%nat ->
     hold n idle = {| progress := 0; isPressing := true;
                      timerActive := false; triggered := 1 |}).
Proof.
  assert (Hclimb : forall k, (k <= 16)%nat ->
            let g := hold k idle in
            progress g == 6.25 * inject_Z (Z.of_nat k) /\
            triggered g = 0%nat /\ timerActive g = true /\
            isPressing g = true).
  { intros k Hk. unfold hold.
    change (run idle (Press :: repeat Tick k))
      with (run (startPress idle) (repeat Tick k)).
    destruct (ticks_climb k (startPress idle) eq_refl)
      as (Hp & Ht & Ha & Hpr).
    - cbn [startPress idle effect clearTimer progress isPressing].
      assert (inject_Z (Z.of_nat k) <= 16).
      { change 16 with (inject_Z 16). rewrite <- Zle_Qle. lia. }
      lra.
    - cbn zeta. rewrite Hp, Ht, Ha, Hpr. cbn. repeat split. ring. }
  split; intros Hn.
  - destruct (Hclimb n Hn) as (Hp & Ht & _). now split.
  - destruct (Hclimb 16%nat (le_n _)) as (Hp & Ht & Ha & Hpr).
    replace n with (16 + (1 + (n - 17)))%nat by lia.
    unfold hold in *.
    rewrite repeat_app, app_comm_cons, run_app.
    set (g16 := run idle (Press :: repeat Tick 16)) in *.
    rewrite repeat_app, run_app.
    assert (Hfire : run g16 (repeat Tick 1)
                    = {| progress := 0; isPressing := true;
                         timerActive := false; triggered := 1 |}).
    { change (run g16 (repeat Tick 1)) with (intervalTick g16).
      unfold intervalTick. rewrite Ha.
      assert (Hge : Qgeb (progress g16) 100 = true).
      { apply Qgeb_iff. rewrite Hp. vm_compute. discriminate. }
      rewrite Hge, Ht, Hpr. reflexivity. }
    rewrite Hfire. now apply ticks_inactive.
Qed.

(** C3: a press begun on a released button, followed by any events
    during which the bar stays strictly below 100%, and then released:
    [onTrigger] has not been called for that press, the bar is back at
    exactly 0, the interval is cleared, and the next press starts from 0
    again. *)
Theorem C3_release_before_full (g : Gate) (evs : list Event) :
  isPressing g = false ->
  below_full (step g Press) evs = true ->
  let released := step (run (step g Press) evs) Release in
  triggered (run (step g Press) evs) = triggered g /\
  triggered released = triggered g /\
  progress released = 0 /\
  isPressing released = false /\
  timerActive released = false /\
  progress (step released Press) = 0.
Proof.
  intros Hidle Hbelow released.
  destruct (below_full_run evs _ Hbelow) as [Ht _].
  assert (Hs : triggered (step g Press) = triggered g)
    by apply startPress_triggered.
  assert (Hrel : released
                 = {| progress := 0; isPressing := false;
                      timerActive := false; triggered := triggered g |}).
  { unfold released.
    change (step (run (step g Press) evs) Release)
      with (endPress (run (step g Press) evs)).
    now rewrite endPress_state, Ht, Hs. }
  split; [now rewrite Ht|].
  rewrite Hrel. repeat split.
Qed.

Lemma C3_release_before_full_witness :
  let evs := repeat Tick 15 ++ [Rerender] in
  isPressing idle = false /\
  below_full (step idle Press) evs = true /\
  triggered (step (run (step idle Press) evs) Release) = 0%nat /\
  progress (step (run (step idle Press) evs) Release) = 0.
Proof.
  intros evs.
  assert (H1 : isPressing idle = false) by reflexivity.
  assert (H2 : below_full (step idle Press) evs = true)
    by (vm_compute; reflexivity).
  split; [exact H1|]. split; [exact H2|].
  destruct (C3_release_before_full idle evs H1 H2)
    as (_ & Ht & Hp & _).
  split; [exact Ht | exact Hp].
Defined.

(** C4, the code at the claim's boundary: after an uninterrupted hold of
    16 periods, 800 ms, the bar is at 100% and [onTrigger] has not been
    called; the call is made by the 17th firing, at 850 ms, which also
    puts the bar back to 0 and clears the interval. *)
Theorem C4_fires_one_period_late :
  elapsed 16 == HOLD_DURATION /\
  progress (hold 16 idle) == 100 /\
  triggered (hold 16 idle) = 0%nat /\
  timerActive (hold 16 idle) = true /\
  triggered (step (hold 16 idle) Release) = 0%nat /\
  elapsed 17 == 850 /\
  triggered (hold 17 idle) = 1%nat /\
  progress (hold 17 idle) = 0 /\
  timerActive (hold 17 idle) = false.
Proof.
  repeat split; vm_compute; reflexivity.
Qed.

End Button.

(** ** The dashboard page *)

Section Page.

Import Dashboard.

(** *** Health *)

Lemma health_ticks (n : nat) (d : Draws) :
  forall s, health (ticks n d s) = healthTicks n d (health s).
Proof.
  induction n as [|n IH]; intros s; [reflexivity|].
  cbn [ticks healthTicks]. now rewrite IH.
Qed.

(** C2, as the code has it: the status a tick derives depends on the new
    latency alone: DEGRADED exactly when it exceeds 300 ms, ALIVE exactly
    when it is at most 300 ms, whatever quota remains; a tick never
    derives HALTED.  The remaining quota is decremented and floored at 0. *)
Theorem C2_status_from_latency_alone (d : Draws) (prev : DashboardData) :
  (status (health (tick d prev)) = DEGRADED
     <-> 300 < latencyMs (health (tick d prev))) /\
  (status (health (tick d prev)) = ALIVE
     <-> latencyMs (health (tick d prev)) <= 300) /\
  status (health (tick d prev)) <> HALTED /\
  apiRequestsRemaining (health (tick d prev))
    = Qmax 0 (apiRequestsRemaining (health prev) - 1).
Proof.
  cbn [tick health tickHealth status latencyMs apiRequestsRemaining].
  generalize (newLatency d (health prev)). intros l.
  cmp_cases; repeat split; intros; try discriminate; try reflexivity;
    try assumption; exfalso; lra.
Qed.

(** C2 as stated fails: 1850 uneventful ticks after the initial state the
    remaining quota is 0 and the latency 45 ms, and the status is ALIVE,
    not HALTED; it stays so on the next tick. *)
Lemma C2_exhausted_quota_is_alive :
  let s := ticks 1850 quiet (initialData "t1" "t2") in
  apiRequestsRemaining (health s) == 0 /\
  latencyMs (health s) == 45 /\
  status (health s) = ALIVE /\
  status (health s) <> HALTED /\
  apiRequestsRemaining (health (tick quiet s)) == 0 /\
  status (health (tick quiet s)) = ALIVE.
Proof.
  cbv zeta. cbn [tick health]. rewrite health_ticks.
  cbn [initialData health].
  repeat split; try (vm_compute; reflexivity).
  vm_compute. discriminate.
Qed.

(** *** Positions under a tick *)

Lemma mapi_length {A B : Type} (f : nat -> A -> B) (l : list A) :
  forall k, length (mapi f k l) = length l.
Proof.
  induction l as [|x l IH]; intros k; cbn; [reflexivity|].
  now rewrite IH.
Qed.

Lemma mapi_nth_error {A B : Type} (f : nat -> A -> B) (l : list A) :
  forall k i,
    nth_error (mapi f k l) i = option_map (f (k + i)%nat) (nth_error l i).
Proof.
  induction l as [|x l IH]; intros k i.
  - now destruct i.
  - destruct i as [|i]; cbn.
    + now rewrite Nat.add_0_r.
    + rewrite IH. now rewrite Nat.add_succ_r.
Qed.

Lemma tick_ids (d : Draws) (prev : DashboardData) :
  map id (positions (tick d prev)) = map id (positions prev).
Proof.
  cbn [tick positions]. generalize 0%nat.
  induction (positions prev) as [|p l IH]; intros k; cbn; [reflexivity|].
  now rewrite IH.
Qed.

Lemma tl_length {A : Type} (l : list A) : length (tl l) = (length l - 1)%nat.
Proof. destruct l; cbn; lia. Qed.

(** C9, as the code has it: a tick neither creates nor destroys a
    position (the ids, in order, are preserved), and for the position at
    index i it changes exactly two fields: the P&L, moved by the drawn
    delta, and the price history, which drops its oldest sample and
    appends priceHistory[7] plus the drawn delta (NaN when there is no
    finite sample at index 7), keeping the length of a non-empty history.
    Id, symbol, side, entry price, mark price, z-score, duration and
    maximum duration are unchanged. *)
Theorem C9_tick_frame (d : Draws) (prev : DashboardData) (i : nat)
    (pos : Position) :
  nth_error (positions prev) i = Some pos ->
  map id (positions (tick d prev)) = map id (positions prev) /\
  length (positions (tick d prev)) = length (positions prev) /\
  exists pos',
    nth_error (positions (tick d prev)) i = Some pos' /\
    id pos' = id pos /\ symbol pos' = symbol pos /\ side pos' = side pos /\
    entryPrice pos' = entryPrice pos /\ markPrice pos' = markPrice pos /\
    zScore pos' = zScore pos /\
    durationMinutes pos' = durationMinutes pos /\
    maxDurationMinutes pos' = maxDurationMinutes pos /\
    pnl pos' = pnl pos + (fst (rPos d i) - 0.5) * 10 /\
    priceHistory pos'
      = tl (priceHistory pos) ++
        [nextSample (priceHistory pos) ((snd (rPos d i) - 0.5) * 10)] /\
    (priceHistory pos <> [] ->
       length (priceHistory pos') = length (priceHistory pos)).
Proof.
  intros Hi. split; [apply tick_ids|].
  split; [apply mapi_length|].
  exists (tickPosition (rPos d i) pos). split.
  - cbn [tick positions]. rewrite mapi_nth_error, Hi. reflexivity.
  - cbn. repeat split.
    intros Hne. rewrite length_app, tl_length. cbn.
    destruct (priceHistory pos); [contradiction | cbn; lia].
Qed.

Lemma C9_tick_frame_witness :
  let prev := initialData "t1" "t2" in
  exists pos,
    nth_error (positions prev) 0 = Some pos /\
    map id (positions (tick quiet prev)) = ["1"; "2"; "3"]%string /\
    length (positions (tick quiet prev)) = 3%nat.
Proof.
  intros prev.
  destruct (nth_error (positions prev) 0) as [pos|] eqn:E;
    [|discriminate E].
  exists pos. split; [reflexivity|].
  destruct (C9_tick_frame quiet prev 0 pos E) as (Hids & Hlen & _).
  split; [exact Hids | exact Hlen].
Defined.

(** C9 as stated fails: a tick on the initial state leaves every
    position's duration (14, 180, 5) and mark price (64500, 3420, 148) as
    they were, while P&L and price history do change. *)
Lemma C9_duration_not_advanced :
  let prev := initialData "t1" "t2" in
  let next := tick chatty prev in
  map durationMinutes (positions next) = [14; 180; 5] /\
  map durationMinutes (positions next)
    = map durationMinutes (positions prev) /\
  map markPrice (positions next) = map markPrice (positions prev) /\
  map markPrice (positions next) = [64500; 3420; 148].
Proof.
  repeat split.
Qed.

(** *** Closing a position *)

Lemma filter_keeps_all {A : Type} (f : A -> bool) (l : list A) :
  (forall x, In x l -> f x = true) -> filter f l = l.
Proof.
  induction l as [|x l IH]; intros H; cbn; [reflexivity|].
  rewrite (H x (or_introl eq_refl)), IH; [reflexivity|].
  intros y Hy. apply H. now right.
Qed.

(** [closePosition] writes one more log entry, whatever the id. *)
Lemma closePosition_logs_length (id0 symbol0 : string) (t : Z) (c : string)
    (prev : DashboardData) :
  length (logs (closePosition id0 symbol0 t c prev))
  = S (length (logs prev)).
Proof. cbn. rewrite length_app. cbn. lia. Qed.

(** C8, as the code has it: for an id absent from the book,
    [closePosition] leaves the list of positions exactly as it was (same
    records, same order, same size) and leaves P&L, win rate and health
    alone; it returns nothing, so no NotFound is signalled, and it appends
    its one WARN liquidation entry to the log as it does for every id. *)
Theorem C8_close_absent_id (id0 symbol0 : string) (t : Z) (c : string)
    (prev : DashboardData) :
  (forall p, In p (positions prev) -> id p <> id0) ->
  positions (closePosition id0 symbol0 t c prev) = positions prev /\
  length (positions (closePosition id0 symbol0 t c prev))
    = length (positions prev) /\
  dailyPnL (closePosition id0 symbol0 t c prev) = dailyPnL prev /\
  winRate (closePosition id0 symbol0 t c prev) = winRate prev /\
  health (closePosition id0 symbol0 t c prev) = health prev /\
  logs (closePosition id0 symbol0 t c prev)
    = logs prev ++
      [ {| msgId := t; timestamp := c; level := WARN;
           message :=
             ("MANUAL LIQUIDATION: " ++ symbol0 ++ " CLOSED")%string |} ].
Proof.
  intros Habsent.
  assert (Hpos : positions (closePosition id0 symbol0 t c prev)
                 = positions prev).
  { cbn [closePosition positions]. apply filter_keeps_all.
    intros p Hp. apply negb_true_iff, String.eqb_neq. now apply Habsent. }
  split; [exact Hpos|]. split; [now rewrite Hpos|]. repeat split.
Qed.

Lemma C8_close_absent_id_witness :
  let prev := initialData "t1" "t2" in
  (forall p, In p (positions prev) -> id p <> "9"%string) /\
  positions (closePosition "9" "XRP/USD" 0 "t3" prev) = positions prev /\
  length (logs (closePosition "9" "XRP/USD" 0 "t3" prev)) = 3%nat.
Proof.
  intros prev.
  assert (H : forall p, In p (positions prev) -> id p <> "9"%string).
  { intros p Hp. cbn in Hp.
    destruct Hp as [<-|[<-|[<-|[]]]]; cbn; discriminate. }
  split; [exact H|].
  destruct (C8_close_absent_id "9" "XRP/USD" 0 "t3" prev H)
    as (Hpos & _ & _ & _ & _ & Hlogs).
  split; [exact Hpos|]. rewrite Hlogs. reflexivity.
Defined.

(** C8 as stated fails: closing the absent id "9" on the initial state
    keeps the three positions and still grows the log from 2 to 3 entries,
    the new one being the WARN liquidation message. *)
Lemma C8_absent_id_still_logged :
  let prev := initialData "t1" "t2" in
  let next := closePosition "9" "XRP/USD" 0 "t3" prev in
  ~ In "9"%string (map id (positions prev)) /\
  positions next = positions prev /\
  length (logs prev) = 2%nat /\
  length (logs next) = 3%nat /\
  logs next <> logs prev /\
  map message (logs next)
    = ["System initialized"; "Connected to Kraken WS";
       "MANUAL LIQUIDATION: XRP/USD CLOSED"]%string.
Proof.
  cbv zeta. split.
  - cbn. intros [H|[H|[H|[]]]]; discriminate H.
  - repeat split. cbn. discriminate.
Qed.

(** *** Log retention *)

(** The tick's append keeps a log that fits within the capacity. *)
Lemma pushShift_length (l : list LogMessage) (e : LogMessage) :
  (length l <= 50)%nat -> (length (pushShift l e) <= 50)%nat.
Proof.
  intros H. unfold pushShift.
  destruct (Nat.ltb_spec 50 (length (l ++ [e]))) as [Hgt|Hle];
    [|exact Hle].
  rewrite tl_length, length_app. cbn. lia.
Qed.

(** It keeps the newest 50 of what was there plus the new entry, oldest
    first. *)
Lemma pushShift_lastn (l : list LogMessage) (e : LogMessage) :
  (length l <= 50)%nat -> pushShift l e = lastn 50 (l ++ [e]).
Proof.
  intros H. unfold pushShift, lastn.
  destruct (Nat.ltb_spec 50 (length (l ++ [e]))) as [Hgt|Hle].
  - rewrite length_app in *. cbn in *.
    replace (length l + 1 - 50)%nat with 1%nat by lia.
    now destruct (l ++ [e]).
  - replace (length (l ++ [e]) - 50)%nat with 0%nat by lia. reflexivity.
Qed.

Lemma lastn_length {A : Type} (n : nat) (l : list A) :
  length (lastn n l) = Nat.min n (length l).
Proof. unfold lastn. rewrite length_skipn. lia. Qed.

Lemma lastn_app_lastn {A : Type} (n : nat) (x y : list A) :
  lastn n (lastn n x ++ y) = lastn n (x ++ y).
Proof.
  unfold lastn at 1 3. rewrite !length_app, lastn_length.
  unfold lastn.
  destruct (Nat.le_gt_cases (length x) n) as [Hle|Hgt].
  - replace (length x - n)%nat with 0%nat by lia. cbn [skipn].
    now replace (Nat.min n (length x)) with (length x) by lia.
  - replace (Nat.min n (length x)) with n by lia.
    replace (length x + length y - n)%nat
      with ((n + length y - n) + (length x - n))%nat by lia.
    rewrite <- skipn_skipn. f_equal.
    rewrite skipn_app.
    replace (length x - n - length x)%nat with 0%nat by lia.
    reflexivity.
Qed.

(** Any number of appends made through the tick's path: the log never
    exceeds 50 entries and holds the 50 most recent ones, oldest first. *)
Lemma pushShift_many (es : list LogMessage) :
  forall l, (length l <= 50)%nat ->
            fold_left pushShift es l = lastn 50 (l ++ es) /\
            (length (fold_left pushShift es l) <= 50)%nat.
Proof.
  induction es as [|e es IH]; intros l H; cbn [fold_left].
  - rewrite app_nil_r. unfold lastn.
    replace (length l - 50)%nat with 0%nat by lia. now split.
  - destruct (IH (pushShift l e) (pushShift_length l e H)) as [Heq Hlen].
    split; [|exact Hlen].
    rewrite Heq, (pushShift_lastn l e H), lastn_app_lastn, <- app_assoc.
    reflexivity.
Qed.

Lemma tickLogs_length (d : Draws) (l : list LogMessage) :
  (length l <= 50)%nat -> (length (tickLogs d l) <= 50)%nat.
Proof.
  intros H. unfold tickLogs. destruct (Qgtb (rLog d) 0.9); [|exact H].
  now apply pushShift_length.
Qed.

(** For every value [Math.random()] can return, the picked message is one
    of the four. *)
Lemma pickMsg_in_msgs (r : Q) : unit_draw r -> In (pickMsg r) msgs.
Proof.
  intros [H0 H1]. unfold pickMsg.
  assert (Hlo : (0 <= Qfloor (r * 4))%Z).
  { change 0%Z with (Qfloor 0). apply Qfloor_resp_le. lra. }
  assert (Hhi : (Qfloor (r * 4) < 4)%Z).
  { rewrite Zlt_Qlt. apply Qle_lt_trans with (r * 4); [apply Qfloor_le|].
    change (inject_Z 4) with 4. lra. }
  assert (Hn : (Z.to_nat (Qfloor (r * 4)) < 4)%nat) by lia.
  destruct (Z.to_nat (Qfloor (r * 4))) as [|[|[|[|n]]]];
    cbn; auto 6; lia.
Qed.

(** C5, the code on the liquidation path: 48 logging ticks after the
    initial state the log holds 50 entries; closing position "1" then
    appends without evicting and leaves 51, and the ticks that follow keep
    51, their single shift only undoing their own push. *)
Theorem C5_liquidation_outgrows_capacity :
  let s50 := applyOps (initialData "t1" "t2")
                      (repeat (TickAppend chatty) 48) in
  let closed := applyOp s50 (Liquidate "1" "BTC/USD" 0 "t3") in
  length (logs s50) = 50%nat /\
  length (logs closed) = 51%nat /\
  length (logs (applyOp closed (TickAppend chatty))) = 51%nat /\
  length (logs (applyOps closed (repeat (TickAppend chatty) 10))) = 51%nat.
Proof.
  repeat split; vm_compute; reflexivity.
Qed.

End Page.

(** * Further properties of the risk panel *)

(** Case analysis on every minimum and maximum in sight. *)
Ltac minmax_one t spec :=
  let H := fresh "Hm" in
  let m := fresh "m" in
  pose proof spec as H; set (m := t) in *; clearbody m;
  destruct H as [[? ?]|[? ?]].

Ltac minmax_cases :=
  repeat match goal with
  | |- context [Qmin ?a ?b] => minmax_one (Qmin a b) (Q.min_spec a b)
  | |- context [Qmax ?a ?b] => minmax_one (Qmax a b) (Q.max_spec a b)
  | _ : context [Qmin ?a ?b] |- _ =>
      minmax_one (Qmin a b) (Q.min_spec a b)
  | _ : context [Qmax ?a ?b] |- _ =>
      minmax_one (Qmax a b) (Q.max_spec a b)
  end.

Section Panel.

Import RiskPanel.

Lemma runDraws_snoc (ds : list Draws) (d : Draws) (s : TradingData) :
  runDraws (ds ++ [d]) s = tick d (runDraws ds s).
Proof. unfold runDraws. now rewrite fold_left_app. Qed.

(** The fields no interval callback writes. *)
Lemma runDraws_frame (ds : list Draws) (s : TradingData) :
  maxDrawdown (runDraws ds s) = maxDrawdown s /\
  maxPositionTime (runDraws ds s) = maxPositionTime s /\
  largestPosition (runDraws ds s) = largestPosition s /\
  maxPositionSize (runDraws ds s) = maxPositionSize s.
Proof.
  revert s. induction ds as [|d ds IH]; intros s; [now repeat split|].
  change (runDraws (d :: ds) s) with (runDraws ds (tick d s)).
  destruct (IH (tick d s)) as (H1 & H2 & H3 & H4).
  now rewrite H1, H2, H3, H4.
Qed.

Lemma inject_nat_S (n : nat) :
  inject_Z (Z.of_nat (S n)) == inject_Z (Z.of_nat n) + 1.
Proof. rewrite Nat2Z.inj_succ, <- Z.add_1_r, inject_Z_plus. reflexivity. Qed.

Lemma inject_nat_nonneg (n : nat) : 0 <= inject_Z (Z.of_nat n).
Proof. change 0 with (inject_Z 0). rewrite <- Zle_Qle. lia. Qed.

Lemma inject_nat_le (n m : nat) :
  (n <= m)%nat <-> inject_Z (Z.of_nat n) <= inject_Z (Z.of_nat m).
Proof. rewrite <- Zle_Qle. lia. Qed.

Lemma inject_nat_lt (n m : nat) :
  (n < m)%nat <-> inject_Z (Z.of_nat n) < inject_Z (Z.of_nat m).
Proof. rewrite <- Zlt_Qlt. lia. Qed.

Lemma longestPosition_run (ds : list Draws) (s : TradingData) :
  longestPosition s <= 25 ->
  longestPosition (runDraws ds s)
  == Qmin (longestPosition s + 0.5 * inject_Z (Z.of_nat (length ds))) 25.
Proof.
  intros Hs. induction ds as [|d ds IH] using rev_ind.
  - change (runDraws [] s) with s.
    change (inject_Z (Z.of_nat (length (@nil Draws)))) with 0.
    minmax_cases; lra.
  - rewrite runDraws_snoc, length_app, Nat.add_comm.
    cbn [length Nat.add tick longestPosition].
    pose proof (inject_nat_nonneg (length ds)) as Hn.
    revert IH. rewrite inject_nat_S.
    generalize (longestPosition (runDraws ds s)). intros l IH.
    revert IH. minmax_cases; intros; lra.
Qed.

(** X1: The longest-position clock.  After n interval callbacks from the
    initial state, whatever was drawn, longestPosition is
    min(8 + n/2, 25): it climbs by half a minute per callback, stops at
    25, and never falls; the limit maxPositionTime stays 15. *)
Theorem X1_longestPosition_closed_form (ds : list Draws) (now : string) :
  let s := runDraws ds (initialData now) in
  longestPosition s == Qmin (8 + 0.5 * inject_Z (Z.of_nat (length ds))) 25 /\
  8 <= longestPosition s /\ longestPosition s <= 25 /\
  (forall d, longestPosition s <= longestPosition (tick d s)) /\
  maxPositionTime s = 15.
Proof.
  cbv zeta.
  assert (H : longestPosition (runDraws ds (initialData now))
              == Qmin (8 + 0.5 * inject_Z (Z.of_nat (length ds))) 25).
  { rewrite longestPosition_run; [reflexivity | vm_compute; discriminate]. }
  pose proof (inject_nat_nonneg (length ds)) as Hn.
  split; [exact H|].
  destruct (runDraws_frame ds (initialData now)) as (_ & Ht & _).
  repeat split; try (revert H; minmax_cases; intros; lra).
  - intros d. cbn [tick longestPosition].
    revert H. generalize (longestPosition (runDraws ds (initialData now))).
    intros l. minmax_cases; intros; lra.
  - exact Ht.
Qed.

(** X2: The colour of the longest-position figure is a function of the
    number n of callbacks since the start alone: green up to n = 8,
    orange from 9 to 14, red from 15 on, for good. *)
Theorem X2_time_tier_by_tick_count (ds : list Draws) (now : string) :
  let t := colorTier (getTimeColor (runDraws ds (initialData now))) in
  (t = Some NORMAL <-> (length ds <= 8)%nat) /\
  (t = Some WARNING <-> (9 <= length ds <= 14)%nat) /\
  (t = Some CRITICAL <-> (15 <= length ds)%nat).
Proof.
  cbv zeta. unfold getTimeColor.
  destruct (runDraws_frame ds (initialData now)) as (_ & Ht & _).
  rewrite Ht. cbn [initialData maxPositionTime].
  destruct (cascade_tiers (longestPosition (runDraws ds (initialData now)))
                          15) as (H1 & H2 & H3).
  cbv zeta in H1, H2, H3. rewrite H1, H2, H3.
  pose proof (longestPosition_run ds (initialData now)) as H.
  cbn [initialData longestPosition] in H.
  specialize (H ltac:(vm_compute; discriminate)).
  rewrite (inject_nat_le (length ds) 8), (inject_nat_le 9 (length ds)),
    (inject_nat_le (length ds) 14), (inject_nat_le 15 (length ds)).
  assert (Hint : forall k, inject_Z (Z.of_nat (length ds)) < inject_Z (Z.of_nat (S k))
                       <-> inject_Z (Z.of_nat (length ds)) <= inject_Z (Z.of_nat k)).
  { intros k. rewrite <- inject_nat_lt, <- inject_nat_le. lia. }
  pose proof (Hint 8%nat) as H8. pose proof (Hint 14%nat) as H14.
  change (inject_Z (Z.of_nat 8)) with 8 in *.
  change (inject_Z (Z.of_nat 9)) with 9 in *.
  change (inject_Z (Z.of_nat 14)) with 14 in *.
  change (inject_Z (Z.of_nat 15)) with 15 in *.
  revert H H8 H14.
  generalize (longestPosition (runDraws ds (initialData now))).
  generalize (inject_Z (Z.of_nat (length ds))). intros n l H H8 H14.
  revert H. minmax_cases; intros.
  all: repeat split; intros; try lra.
  all: try (apply Qnot_lt_le; intros Hc; apply H8 in Hc; lra).
  all: try (apply Qnot_lt_le; intros Hc; apply H14 in Hc; lra).
Qed.


(** X3: No interval callback touches the configuration or the position
    size, so from any state the size colour, the three limits and the
    largest position are the same after any run of callbacks. *)
Theorem X3_run_keeps_limits_and_size_colour (ds : list Draws)
    (s : TradingData) :
  getPositionSizeColor (runDraws ds s) = getPositionSizeColor s /\
  maxDrawdown (runDraws ds s) = maxDrawdown s /\
  maxPositionTime (runDraws ds s) = maxPositionTime s /\
  maxPositionSize (runDraws ds s) = maxPositionSize s /\
  largestPosition (runDraws ds s) = largestPosition s.
Proof.
  destruct (runDraws_frame ds s) as (H1 & H2 & H3 & H4).
  unfold getPositionSizeColor. rewrite H3, H4. now repeat split.
Qed.



(** X5: With a limit that is zero or negative the time and the size
    classifier have no WARNING band: they answer CRITICAL when the value
    exceeds the limit and NORMAL otherwise. *)
Theorem X5_nonpositive_limit_has_no_warning (value max : Q) :
  max <= 0 ->
  timeTier value max <> Some WARNING /\
  sizeTier value max <> Some WARNING /\
  (timeTier value max = Some CRITICAL <-> max < value) /\
  (timeTier value max = Some NORMAL <-> value <= max) /\
  sizeTier value max = timeTier value max.
Proof.
  intros Hm.
  destruct (cascade_tiers value max) as (H1 & H2 & H3).
  cbv zeta in H1, H2, H3.
  change (timeTier value max)
    with (colorTier (if Qgtb value max then "#FF3737"
                     else if Qgtb value (max * 0.8) then "#FFA500"
                     else "#00D26A")).
  change (sizeTier value max)
    with (colorTier (if Qgtb value max then "#FF3737"
                     else if Qgtb value (max * 0.8) then "#FFA500"
                     else "#00D26A")).
  assert (Hw : colorTier (if Qgtb value max then "#FF3737"
                     else if Qgtb value (max * 0.8) then "#FFA500"
                     else "#00D26A") <> Some WARNING).
  { intros H. apply H2 in H. lra. }
  split; [exact Hw|]. split; [exact Hw|]. split; [exact H1|].
  split; [|reflexivity].
  rewrite H3. split; [tauto|]. intros H. split; lra.
Qed.

Lemma X5_nonpositive_limit_has_no_warning_witness :
  -10 <= 0 /\
  timeTier (-9) (-10) = Some CRITICAL /\
  timeTier (-9) (-10) <> Some WARNING.
Proof.
  assert (H : -10 <= 0) by (vm_compute; discriminate).
  split; [exact H|].
  destruct (X5_nonpositive_limit_has_no_warning (-9) (-10) H)
    as (Hw & _ & Hc & _).
  split; [apply Hc; reflexivity | exact Hw].
Defined.

(** The rank of a cascade's answer, by cases. *)
Lemma cascade_rank (v m : Q) :
  let r := optRank (colorTier (if Qgtb v m then "#FF3737"
                               else if Qgtb v (m * 0.8) then "#FFA500"
                               else "#00D26A")) in
  (m < v -> r = 2%nat) /\
  (v <= m -> m * 0.8 < v -> r = 1%nat) /\
  (v <= m -> v <= m * 0.8 -> r = 0%nat).
Proof.
  cbv zeta. cmp_cases; cbn; repeat split; intros; try reflexivity;
    exfalso; lra.
Qed.

(** X6: Severity never decreases when the value grows: for a fixed limit,
    of any sign, a larger value gets the same or a higher tier from the
    time and the size classifier. *)
Theorem X6_tier_monotone_in_value (v1 v2 max : Q) :
  v1 <= v2 ->
  (optRank (timeTier v1 max) <= optRank (timeTier v2 max))%nat /\
  (optRank (sizeTier v1 max) <= optRank (sizeTier v2 max))%nat.
Proof.
  intros Hv.
  assert (H : (optRank (timeTier v1 max) <= optRank (timeTier v2 max))%nat).
  { destruct (cascade_rank v1 max) as (A1 & A2 & A3).
    destruct (cascade_rank v2 max) as (B1 & B2 & B3).
    cbv zeta in *.
    change (timeTier v1 max)
      with (colorTier (if Qgtb v1 max then "#FF3737"
                       else if Qgtb v1 (max * 0.8) then "#FFA500"
                       else "#00D26A")).
    change (timeTier v2 max)
      with (colorTier (if Qgtb v2 max then "#FF3737"
                       else if Qgtb v2 (max * 0.8) then "#FFA500"
                       else "#00D26A")).
    destruct (Qlt_le_dec max v1) as [C1|C1];
      destruct (Qlt_le_dec max v2) as [C2|C2];
      destruct (Qlt_le_dec (max * 0.8) v1) as [D1|D1];
      destruct (Qlt_le_dec (max * 0.8) v2) as [D2|D2];
      try (exfalso; lra);
      repeat match goal with
      | H : ?P -> _, p : ?P |- _ => specialize (H p)
      end;
      lia. }
  split; exact H.
Qed.

Lemma X6_tier_monotone_in_value_witness :
  11 <= 13 /\
  (optRank (timeTier 11 15) <= optRank (timeTier 13 15))%nat.
Proof.
  assert (H : 11 <= 13) by (vm_compute; discriminate).
  split; [exact H|].
  apply (X6_tier_monotone_in_value 11 13 15 H).
Defined.

(** X7: The drawdown bar and its colour agree: with a non-zero maximum
    the bar is red exactly when it is wider than 80%, orange exactly when
    its width is above 50% and at most 80%, green otherwise; its width is
    never negative. *)
Theorem X7_drawdown_bar_width_and_colour (data : TradingData) :
  ~ maxDrawdown data == 0 ->
  0 <= drawdownBarWidth data /\
  (getDrawdownColor data = "#FF3737"%string <-> 80 < drawdownBarWidth data) /\
  (getDrawdownColor data = "#FFA500"%string
     <-> 50 < drawdownBarWidth data /\ drawdownBarWidth data <= 80) /\
  (getDrawdownColor data = "#00D26A"%string <-> drawdownBarWidth data <= 50).
Proof.
  intros _. unfold drawdownBarWidth, getDrawdownColor, drawdownRatio.
  pose proof (Qabs_nonneg (currentDrawdown data / maxDrawdown data)) as Hn.
  revert Hn. generalize (Qabs (currentDrawdown data / maxDrawdown data)).
  intros r Hn. cbv zeta.
  cmp_cases; repeat split; intros; try discriminate; try reflexivity;
    try lra; exfalso; lra.
Qed.

Lemma X7_drawdown_bar_width_and_colour_witness :
  let data := initialData "t0" in
  ~ maxDrawdown data == 0 /\
  drawdownBarWidth data <= 50 /\
  getDrawdownColor data = "#00D26A"%string.
Proof.
  intros data.
  assert (H : ~ maxDrawdown data == 0) by (vm_compute; discriminate).
  split; [exact H|].
  destruct (X7_drawdown_bar_width_and_colour data H) as (_ & _ & _ & Hg).
  assert (Hw : drawdownBarWidth data <= 50) by (vm_compute; discriminate).
  split; [exact Hw | apply Hg; exact Hw].
Defined.

End Panel.

(** * Further properties of the hold-to-kill button *)

Section ButtonMore.

Import SafeTriggerButton.

Lemma run_snoc (g : Gate) (evs : list Event) (e : Event) :
  run g (evs ++ [e]) = step (run g evs) e.
Proof. unfold run. now rewrite fold_left_app. Qed.

Lemma gate_inv_rest (n : nat) :
  gate_inv {| progress := 0; isPressing := false; timerActive := false;
              triggered := n |}.
Proof.
  split; [|now intros _].
  exists 0%nat. split; [lia | reflexivity].
Qed.

Lemma gate_inv_step (g : Gate) (e : Event) :
  gate_inv g -> gate_inv (step g e).
Proof.
  intros [(k & Hk & Hp) Hrest]. destruct e; cbn [step].
  - unfold startPress. destruct (isPressing g) eqn:E.
    + split; [now exists k | now rewrite E].
    + destruct (Hrest eq_refl) as [H0 _]. cbn.
      split; [|discriminate]. exists 0%nat. split; [lia|].
      rewrite H0. reflexivity.
  - rewrite endPress_state. apply gate_inv_rest.
  - unfold intervalTick. destruct (timerActive g) eqn:Ea.
    + assert (Epr : isPressing g = true).
      { destruct (isPressing g); [reflexivity|].
        destruct (Hrest eq_refl) as [_ H]. discriminate H. }
      destruct (Qgeb (progress g) 100) eqn:Ef.
      * split; [|cbn; rewrite Epr; discriminate].
        exists 0%nat. split; [lia | reflexivity].
      * apply Qgeb_false_iff in Ef.
        split; [|cbn; rewrite Epr; discriminate].
        exists (S k). cbn [progress].
        assert (Hlt : (k < 16)%nat).
        { apply Nat.nle_gt. intros Hge.
          assert (k = 16%nat) by lia. subst k.
          rewrite Hp in Ef. vm_compute in Ef. discriminate Ef. }
        split; [lia|].
        rewrite step_size, Hp, inject_S. ring.
    + split; [now exists k|].
      intros H. destruct (Hrest H) as [A _]. split; [exact A | exact Ea].
  - unfold effect. cbn. destruct (isPressing g) eqn:E.
    + split; [now exists k | discriminate].
    + apply gate_inv_rest.
Qed.

Lemma gate_inv_run (evs : list Event) : gate_inv (run idle evs).
Proof.
  induction evs as [|e evs IH] using rev_ind.
  - apply gate_inv_rest.
  - rewrite run_snoc. now apply gate_inv_step.
Qed.

(** X8: Whatever sequence of presses, releases, interval firings and
    parent re-renders a mounted button goes through, its bar shows a whole
    number of 6.25% increments between 0% and 100%, a button that is not
    pressed shows 0% and has no live interval, and an interval is live
    only while the button is pressed. *)
Theorem X8_button_invariant (evs : list Event) :
  let g := run idle evs in
  (exists k : nat, (k <= 16)%nat /\
                   progress g == 6.25 * inject_Z (Z.of_nat k)) /\
  0 <= progress g /\ progress g <= 100 /\
  (isPressing g = false -> progress g = 0 /\ timerActive g = false) /\
  (timerActive g = true -> isPressing g = true).
Proof.
  cbv zeta. destruct (gate_inv_run evs) as [(k & Hk & Hp) Hrest].
  split; [now exists k|].
  assert (H0 : 0 <= inject_Z (Z.of_nat k)).
  { change 0 with (inject_Z 0). rewrite <- Zle_Qle. lia. }
  assert (H16 : inject_Z (Z.of_nat k) <= 16).
  { change 16 with (inject_Z 16). rewrite <- Zle_Qle. lia. }
  split; [rewrite Hp; lra|]. split; [rewrite Hp; lra|].
  split; [exact Hrest|].
  intros Ha. destruct (isPressing (run idle evs)); [reflexivity|].
  destruct (Hrest eq_refl) as [_ H]. rewrite H in Ha. discriminate Ha.
Qed.

(** While pressed with a live interval, firings and re-renders that do
    not fill the bar add one increment per firing and nothing else. *)
Lemma climb_with_rerenders (evs : list Event) :
  forall g,
    isPressing g = true -> timerActive g = true ->
    forallb tickOrRerender evs = true ->
    progress g + 6.25 * inject_Z (Z.of_nat (countTicks evs)) < 100 + 6.25 ->
    progress (run g evs)
      == progress g + 6.25 * inject_Z (Z.of_nat (countTicks evs)) /\
    triggered (run g evs) = triggered g /\
    timerActive (run g evs) = true /\
    isPressing (run g evs) = true.
Proof.
  induction evs as [|e evs IH]; intros g Hpr Ha Hall Hb.
  - cbn. repeat split; try assumption. ring.
  - cbn [forallb] in Hall. apply andb_true_iff in Hall.
    destruct Hall as [He Hall].
    change (run g (e :: evs)) with (run (step g e) evs).
    assert (Hn : 0 <= inject_Z (Z.of_nat (countTicks evs))).
    { change 0 with (inject_Z 0). rewrite <- Zle_Qle. lia. }
    destruct e; try discriminate He.
    + cbn [countTicks] in *. rewrite inject_S in Hb.
      assert (Hlt : Qgeb (progress g) 100 = false)
        by (apply Qgeb_false_iff; lra).
      cbn [step]. unfold intervalTick. rewrite Ha, Hlt, Hpr.
      set (g1 := {| progress := progress g + 100 / (HOLD_DURATION / TICK_MS);
                    isPressing := true; timerActive := true;
                    triggered := triggered g |}).
      assert (Hp1 : progress g1 == progress g + 6.25).
      { unfold g1; cbn [progress]. rewrite step_size. reflexivity. }
      destruct (IH g1 eq_refl eq_refl Hall) as (Hp & Ht & Hact & Hprs).
      { rewrite Hp1. lra. }
      repeat split; try assumption.
      rewrite Hp, Hp1, inject_S. ring.
    + cbn [countTicks] in *. cbn [step]. unfold effect.
      cbn [clearTimer isPressing progress triggered]. rewrite Hpr.
      set (g1 := {| progress := progress g; isPressing := true;
                    timerActive := true; triggered := triggered g |}).
      destruct (IH g1 eq_refl eq_refl Hall Hb) as (Hp & Ht & Hact & Hprs).
      repeat split; assumption.
Qed.

(** X9: A parent re-render during a hold neither resets nor advances the
    bar.  After a press on a button at rest, any interleaving of interval
    firings and re-renders with at most 16 firings leaves the bar at
    6.25% per firing, the interval live and [onTrigger] not called. *)
Theorem X9_rerender_keeps_hold_progress (g : Gate) (evs : list Event) :
  isPressing g = false ->
  progress g == 0 ->
  forallb tickOrRerender evs = true ->
  (countTicks evs <= 16)%nat ->
  progress (run (step g Press) evs)
    == 6.25 * inject_Z (Z.of_nat (countTicks evs)) /\
  triggered (run (step g Press) evs) = triggered g /\
  timerActive (run (step g Press) evs) = true /\
  isPressing (run (step g Press) evs) = true.
Proof.
  intros Hpr H0 Hall Hn.
  assert (Hs : step g Press
               = {| progress := progress g; isPressing := true;
                    timerActive := true; triggered := triggered g |}).
  { cbn [step]. unfold startPress. rewrite Hpr. reflexivity. }
  rewrite Hs.
  assert (H16 : inject_Z (Z.of_nat (countTicks evs)) <= 16).
  { change 16 with (inject_Z 16). rewrite <- Zle_Qle. lia. }
  destruct (climb_with_rerenders evs
              {| progress := progress g; isPressing := true;
                 timerActive := true; triggered := triggered g |}
              eq_refl eq_refl Hall)
    as (Hp & Ht & Ha & Hprs).
  { cbn [progress]. rewrite H0. lra. }
  cbn [progress triggered] in Hp, Ht.
  repeat split; try assumption.
  rewrite Hp, H0. ring.
Qed.

Lemma X9_rerender_keeps_hold_progress_witness :
  let evs := [Tick; Tick; Rerender; Tick; Rerender] in
  isPressing idle = false /\
  progress idle == 0 /\
  forallb tickOrRerender evs = true /\
  (countTicks evs <= 16)%nat /\
  progress (run (step idle Press) evs) == 18.75.
Proof.
  intros evs.
  assert (H1 : isPressing idle = false) by reflexivity.
  assert (H2 : progress idle == 0) by reflexivity.
  assert (H3 : forallb tickOrRerender evs = true) by reflexivity.
  assert (H4 : (countTicks evs <= 16)%nat) by (cbn; lia).
  split; [exact H1|]. split; [exact H2|]. split; [exact H3|].
  split; [exact H4|].
  destruct (X9_rerender_keeps_hold_progress idle evs H1 H2 H3 H4)
    as (Hp & _).
  rewrite Hp. reflexivity.
Defined.

(** X10: An uninterrupted hold of 17 or more interval periods, begun on any
    button at rest, calls [onTrigger] exactly once; the button is then
    back at 0% with its interval cleared, still pressed. *)
Theorem X10_long_hold_fires_once (n : nat) (g : Gate) :
  isPressing g = false ->
  progress g == 0 ->
  (17 <= n)%nat ->
  hold n g = {| progress := 0; isPressing := true; timerActive := false;
                triggered := S (triggered g) |}.
Proof.
  intros Hpr H0 Hn.
  replace n with (16 + (1 + (n - 17)))%nat by lia.
  unfold hold.
  change (run g (Press :: repeat Tick (16 + (1 + (n - 17)))))
    with (run (step g Press) (repeat Tick (16 + (1 + (n - 17))))).
  assert (Hs : step g Press
               = {| progress := progress g; isPressing := true;
                    timerActive := true; triggered := triggered g |}).
  { cbn [step]. unfold startPress. rewrite Hpr. reflexivity. }
  rewrite Hs, repeat_app, run_app.
  match goal with |- run (run ?g0 _) _ = _ => set (g1 := g0) end.
  destruct (ticks_climb 16 g1 eq_refl) as (Hp & Ht & Ha & Hprs).
  { unfold g1. cbn [progress]. rewrite H0. vm_compute. reflexivity. }
  cbv zeta in Hp, Ht, Ha, Hprs.
  set (g16 := run g1 (repeat Tick 16)) in *.
  rewrite repeat_app, run_app.
  assert (Hfire : run g16 (repeat Tick 1)
                  = {| progress := 0; isPressing := true;
                       timerActive := false;
                       triggered := S (triggered g) |}).
  { change (run g16 (repeat Tick 1)) with (intervalTick g16).
    unfold intervalTick. rewrite Ha. cbn [orb timerActive g1].
    assert (Hge : Qgeb (progress g16) 100 = true).
    { apply Qgeb_iff. rewrite Hp. unfold g1. cbn [progress]. rewrite H0.
      vm_compute. discriminate. }
    rewrite Hge, Ht, Hprs. reflexivity. }
  rewrite Hfire. now apply ticks_inactive.
Qed.

Lemma X10_long_hold_fires_once_witness :
  isPressing idle = false /\ progress idle == 0 /\ (17 <= 40)%nat /\
  triggered (hold 40 idle) = 1%nat.
Proof.
  assert (H1 : isPressing idle = false) by reflexivity.
  assert (H2 : progress idle == 0) by reflexivity.
  assert (H3 : (17 <= 40)%nat) by lia.
  split; [exact H1|]. split; [exact H2|]. split; [exact H3|].
  rewrite (X10_long_hold_fires_once 40 idle H1 H2 H3). reflexivity.
Defined.

(** Once the interval is cleared while the button is still pressed,
    further firings and pointer-down events change nothing. *)
Lemma fired_is_stuck (evs : list Event) (g : Gate) :
  isPressing g = true -> timerActive g = false ->
  forallb tickOrPress evs = true -> run g evs = g.
Proof.
  intros Hpr Ha. induction evs as [|e evs IH]; intros Hall;
    [reflexivity|].
  cbn [forallb] in Hall. apply andb_true_iff in Hall.
  destruct Hall as [He Hall].
  change (run g (e :: evs)) with (run (step g e) evs).
  destruct e; try discriminate He; cbn [step].
  - unfold startPress. rewrite Hpr. now apply IH.
  - unfold intervalTick. rewrite Ha. now apply IH.
Qed.

Lemma pressed_fires_at_most_once (evs : list Event) :
  forall g, isPressing g = true ->
            forallb tickOrPress evs = true ->
            (triggered (run g evs) <= S (triggered g))%nat /\
            (triggered g <= triggered (run g evs))%nat.
Proof.
  induction evs as [|e evs IH]; intros g Hpr Hall; [cbn; lia|].
  cbn [forallb] in Hall. apply andb_true_iff in Hall.
  destruct Hall as [He Hall].
  change (run g (e :: evs)) with (run (step g e) evs).
  destruct e; try discriminate He; cbn [step].
  - unfold startPress. rewrite Hpr. now apply IH.
  - unfold intervalTick. destruct (timerActive g) eqn:Ea;
      [|now apply IH].
    destruct (Qgeb (progress g) 100).
    + rewrite fired_is_stuck; [cbn; lia | exact Hpr | reflexivity | exact Hall].
    + destruct (IH {| progress := progress g + 100 / (HOLD_DURATION / TICK_MS);
                      isPressing := isPressing g; timerActive := true;
                      triggered := triggered g |} Hpr Hall) as [H1 H2].
      cbn [triggered] in H1, H2. split; assumption.
Qed.

(** X11: Without a parent re-render, one press calls [onTrigger] at most
    once however long it is held and however often the pointer-down
    handler runs again; calls already made are never taken back. *)
Theorem X11_press_fires_at_most_once (g : Gate) (evs : list Event) :
  isPressing g = false ->
  forallb tickOrPress evs = true ->
  (triggered g <= triggered (run (step g Press) evs))%nat /\
  (triggered (run (step g Press) evs) <= S (triggered g))%nat.
Proof.
  intros Hpr Hall.
  assert (Hs : step g Press
               = {| progress := progress g; isPressing := true;
                    timerActive := true; triggered := triggered g |}).
  { cbn [step]. unfold startPress. rewrite Hpr. reflexivity. }
  rewrite Hs.
  destruct (pressed_fires_at_most_once evs
              {| progress := progress g; isPressing := true;
                 timerActive := true; triggered := triggered g |}
              eq_refl Hall) as [H1 H2].
  cbn [triggered] in H1, H2. split; assumption.
Qed.

Lemma X11_press_fires_at_most_once_witness :
  let evs := repeat Tick 20 ++ [Press] ++ repeat Tick 20 in
  isPressing idle = false /\
  forallb tickOrPress evs = true /\
  (triggered (run (step idle Press) evs) <= 1)%nat.
Proof.
  intros evs.
  assert (H1 : isPressing idle = false) by reflexivity.
  assert (H2 : forallb tickOrPress evs = true) by reflexivity.
  split; [exact H1|]. split; [exact H2|].
  apply (X11_press_fires_at_most_once idle evs H1 H2).
Defined.

(** X12: A button that is not pressed never shows its active label.  After
    any sequence of events, a released button shows the idle label, and it
    still does after a further release. *)
Theorem X12_released_button_shows_idle_label (label activeLabel : string)
    (evs : list Event) :
  isPressing (run idle evs) = false ->
  buttonLabel label activeLabel (run idle evs) = label /\
  buttonLabel label activeLabel (step (run idle evs) Release) = label.
Proof.
  intros Hpr. destruct (gate_inv_run evs) as [_ Hrest].
  destruct (Hrest Hpr) as [H0 _].
  unfold buttonLabel. cbn [step]. rewrite endPress_state, H0.
  split; reflexivity.
Qed.

Lemma X12_released_button_shows_idle_label_witness :
  let evs := Press :: repeat Tick 9 ++ [Release; Tick] in
  isPressing (run idle evs) = false /\
  buttonLabel "HOLD TO KILL" "CLOSING..." (run idle evs)
    = "HOLD TO KILL"%string.
Proof.
  intros evs.
  assert (H : isPressing (run idle evs) = false) by reflexivity.
  split; [exact H|].
  apply (X12_released_button_shows_idle_label _ _ evs H).
Defined.

End ButtonMore.

(** * Further properties of the dashboard page *)

Section PageMore.

Import Dashboard.

Lemma runTicks_snoc (ds : list Draws) (d : Draws) (s : DashboardData) :
  runTicks (ds ++ [d]) s = tick d (runTicks ds s).
Proof. unfold runTicks. now rewrite fold_left_app. Qed.

(** *** The log *)

Lemma tickLogs_fold (d : Draws) (l : list LogMessage) :
  tickLogs d l
  = fold_left pushShift (map tickEntry (filter logGate [d])) l.
Proof.
  unfold tickLogs. cbn [filter]. unfold logGate.
  now destruct (Qgtb (rLog d) 0.9).
Qed.

Lemma runTicks_logs (ds : list Draws) :
  forall s,
    logs (runTicks ds s)
    = fold_left pushShift (map tickEntry (filter logGate ds)) (logs s).
Proof.
  induction ds as [|d ds IH]; intros s; [reflexivity|].
  change (runTicks (d :: ds) s) with (runTicks ds (tick d s)).
  rewrite IH. cbn [tick logs].
  change (d :: ds) with ([d] ++ ds).
  rewrite filter_app, map_app, fold_left_app, <- tickLogs_fold.
  reflexivity.
Qed.

(** X13: The tick's own retention.  Starting from a log of at most 50
    entries, after any run of ticks the log is exactly the 50 most recent
    of the old entries followed by the entries pushed since, oldest first,
    and it still has at most 50 entries. *)
Theorem X13_tick_log_is_newest_50 (ds : list Draws) (s : DashboardData) :
  (length (logs s) <= 50)%nat ->
  logs (runTicks ds s)
    = lastn 50 (logs s ++ map tickEntry (filter logGate ds)) /\
  (length (logs (runTicks ds s)) <= 50)%nat.
Proof.
  intros H. rewrite runTicks_logs. now apply pushShift_many.
Qed.

Lemma X13_tick_log_is_newest_50_witness :
  let s := initialData "t1" "t2" in
  let ds := repeat chatty 60 in
  (length (logs s) <= 50)%nat /\
  length (logs (runTicks ds s)) = 50%nat /\
  map message (logs (runTicks ds s)) = repeat "Garbage Collection"%string 50.
Proof.
  intros s ds.
  assert (H : (length (logs s) <= 50)%nat) by (cbn; lia).
  split; [exact H|].
  destruct (X13_tick_log_is_newest_50 ds s H) as [Heq _].
  rewrite Heq. split; reflexivity.
Defined.

Lemma pushShift_length_cases (l : list LogMessage) (e : LogMessage) :
  length (pushShift l e)
  = if (length l <? 50)%nat then S (length l) else length l.
Proof.
  unfold pushShift. rewrite length_app. cbn [length].
  destruct (Nat.ltb_spec 50 (length l + 1));
    destruct (Nat.ltb_spec (length l) 50); try lia.
  - rewrite tl_length, length_app. cbn. lia.
  - rewrite length_app. cbn. lia.
Qed.

Lemma applyOp_logs_length (s : DashboardData) (op : LogOp) :
  (length (logs s) <= length (logs (applyOp s op)))%nat /\
  (Nat.max 50 (length (logs (applyOp s op)))
   <= Nat.max 50 (length (logs s)) + countLiquidations [op])%nat.
Proof.
  destruct op as [d|i sy t c]; cbn [applyOp countLiquidations].
  - cbn [tick logs]. unfold tickLogs.
    destruct (Qgtb (rLog d) 0.9); [|lia].
    rewrite pushShift_length_cases.
    destruct (Nat.ltb_spec (length (logs s)) 50); lia.
  - rewrite closePosition_logs_length. lia.
Qed.

Lemma countLiquidations_app (l1 l2 : list LogOp) :
  countLiquidations (l1 ++ l2)
  = (countLiquidations l1 + countLiquidations l2)%nat.
Proof.
  induction l1 as [|[d|i sy t c] l1 IH]; cbn; lia.
Qed.

(** X14: The size of the log under both writers.  No operation ever shrinks
    the log, and after any mix of ticks and liquidations it holds at most
    max(50, its length before) entries plus one per liquidation. *)
Theorem X14_log_length_bounds (ops : list LogOp) (s : DashboardData) :
  (length (logs s) <= length (logs (applyOps s ops)))%nat /\
  (length (logs (applyOps s ops))
   <= Nat.max 50 (length (logs s)) + countLiquidations ops)%nat.
Proof.
  assert (H : (length (logs s) <= length (logs (applyOps s ops)))%nat /\
              (Nat.max 50 (length (logs (applyOps s ops)))
               <= Nat.max 50 (length (logs s)) + countLiquidations ops)%nat).
  { induction ops as [|op ops IH] using rev_ind; [cbn; lia|].
    unfold applyOps in *. rewrite fold_left_app. cbn [fold_left].
    rewrite countLiquidations_app.
    destruct (applyOp_logs_length (fold_left applyOp ops s) op). lia. }
  lia.
Qed.

(** *** Closing positions *)

(** X15: [closePosition] removes every position carrying the id and no
    other: a position is in the book afterwards exactly when it was there
    before under a different id; the id is gone, and the survivors keep
    their order. *)
Theorem X15_close_removes_exactly_the_id (id0 symbol0 : string) (t : Z)
    (c : string) (s : DashboardData) :
  (forall p, In p (positions (closePosition id0 symbol0 t c s))
             <-> In p (positions s) /\ id p <> id0) /\
  ~ In id0 (map id (positions (closePosition id0 symbol0 t c s))) /\
  (length (positions (closePosition id0 symbol0 t c s))
   <= length (positions s))%nat /\
  positions (closePosition id0 symbol0 t c s)
    = filter (fun p => negb (String.eqb (id p) id0)) (positions s).
Proof.
  cbn [closePosition positions]. repeat split.
  - now apply filter_In in H.
  - apply filter_In in H. destruct H as [_ H].
    now apply negb_true_iff, String.eqb_neq in H.
  - intros [H1 H2]. apply filter_In. split; [exact H1|].
    now apply negb_true_iff, String.eqb_neq.
  - intros H. apply in_map_iff in H. destruct H as (p & Hid & Hp).
    apply filter_In in Hp. destruct Hp as [_ Hp].
    apply negb_true_iff, String.eqb_neq in Hp. contradiction.
  - apply filter_length_le.
Qed.

Lemma filter_unique_id (id0 : string) (l : list Position) :
  NoDup (map id l) -> In id0 (map id l) ->
  S (length (filter (fun p => negb (String.eqb (id p) id0)) l)) = length l.
Proof.
  induction l as [|p l IH]; intros Hnd Hin; [contradiction|].
  cbn [map] in Hnd. inversion Hnd as [|x xs Hnot Hnd']; subst.
  cbn [filter length].
  destruct (String.eqb_spec (id p) id0) as [E|E]; cbn [negb].
  - subst id0. f_equal. f_equal. apply filter_keeps_all.
    intros q Hq. apply negb_true_iff, String.eqb_neq.
    intros Eq. apply Hnot. rewrite <- Eq. now apply in_map.
  - cbn [length]. f_equal. apply IH; [exact Hnd'|].
    cbn in Hin. destruct Hin as [Hin|Hin]; [contradiction | exact Hin].
Qed.

Lemma filter_map_NoDup {A B : Type} (f : A -> B) (g : A -> bool)
    (l : list A) :
  NoDup (map f l) -> NoDup (map f (filter g l)).
Proof.
  induction l as [|x l IH]; intros H; [constructor|].
  cbn [map] in H. inversion H as [|y ys Hnot Hnd]; subst.
  cbn [filter]. destruct (g x); [|now apply IH].
  cbn [map]. constructor; [|now apply IH].
  intros Hin. apply Hnot. apply in_map_iff in Hin.
  destruct Hin as (z & Hz & Hin). apply filter_In in Hin.
  rewrite <- Hz. now apply in_map.
Qed.

(** X16: In a book whose ids are distinct, closing an id that is present
    removes exactly one position and leaves the ids distinct. *)
Theorem X16_close_present_id_removes_one (id0 symbol0 : string) (t : Z)
    (c : string) (s : DashboardData) :
  NoDup (map id (positions s)) ->
  In id0 (map id (positions s)) ->
  S (length (positions (closePosition id0 symbol0 t c s)))
    = length (positions s) /\
  NoDup (map id (positions (closePosition id0 symbol0 t c s))).
Proof.
  intros Hnd Hin. cbn [closePosition positions].
  split; [now apply filter_unique_id | now apply filter_map_NoDup].
Qed.

Lemma X16_close_present_id_removes_one_witness :
  let s := initialData "t1" "t2" in
  NoDup (map id (positions s)) /\
  In "2"%string (map id (positions s)) /\
  length (positions (closePosition "2" "ETH/USD" 0 "t3" s)) = 2%nat.
Proof.
  intros s.
  assert (Hnd : NoDup (map id (positions s))).
  { cbn. repeat constructor; cbn; intros H;
      repeat (destruct H as [H|H]; [discriminate H|]); exact H. }
  assert (Hin : In "2"%string (map id (positions s)))
    by (cbn; right; left; reflexivity).
  split; [exact Hnd|]. split; [exact Hin|].
  destruct (X16_close_present_id_removes_one "2" "ETH/USD" 0 "t3" s Hnd Hin)
    as [Hlen _].
  apply eq_add_S. exact Hlen.
Defined.

Lemma filter_filter_comm {A : Type} (f g : A -> bool) (l : list A) :
  filter f (filter g l) = filter g (filter f l).
Proof.
  induction l as [|x l IH]; [reflexivity|]. cbn [filter].
  destruct (f x) eqn:Ef; destruct (g x) eqn:Eg; cbn [filter];
    rewrite ?Ef, ?Eg, IH; reflexivity.
Qed.

Lemma filter_idem {A : Type} (f : A -> bool) (l : list A) :
  filter f (filter f l) = filter f l.
Proof.
  apply filter_keeps_all. intros x Hx. now apply filter_In in Hx.
Qed.

(** X17: Closing the same id twice removes nothing more from the book the
    second time but writes a second WARN entry; closing two ids gives the
    same book in either order. *)
Theorem X17_close_twice_and_commute (i j si sj : string) (t1 t2 : Z)
    (c1 c2 : string) (s : DashboardData) :
  positions (closePosition i si t2 c2 (closePosition i si t1 c1 s))
    = positions (closePosition i si t1 c1 s) /\
  logs (closePosition i si t2 c2 (closePosition i si t1 c1 s))
    = logs s ++ [closeEntry si t1 c1; closeEntry si t2 c2] /\
  positions (closePosition i si t1 c1 (closePosition j sj t2 c2 s))
    = positions (closePosition j sj t2 c2 (closePosition i si t1 c1 s)).
Proof.
  cbn [closePosition positions logs]. split; [apply filter_idem|].
  split; [now rewrite <- app_assoc | apply filter_filter_comm].
Qed.

Lemma filter_mapi_ids (f : nat -> Position -> Position) (id0 : string)
    (l : list Position) :
  (forall i p, id (f i p) = id p) ->
  forall k k',
    map id (filter (fun p => negb (String.eqb (id p) id0)) (mapi f k l))
    = map id (mapi f k' (filter (fun p => negb (String.eqb (id p) id0)) l)).
Proof.
  intros Hf. induction l as [|p l IH]; intros k k'; [reflexivity|].
  cbn [mapi filter]. rewrite Hf.
  destruct (negb (String.eqb (id p) id0)).
  - cbn [mapi map]. rewrite !Hf. f_equal. apply IH.
  - apply IH.
Qed.

(** X18: A tick and a liquidation can come in either order as far as the
    book's ids are concerned: the same ids, in the same order, remain. *)
Theorem X18_tick_and_close_commute_on_ids (d : Draws) (id0 symbol0 : string)
    (t : Z) (c : string) (s : DashboardData) :
  map id (positions (closePosition id0 symbol0 t c (tick d s)))
    = map id (positions (tick d (closePosition id0 symbol0 t c s))) /\
  map id (positions (tick d (closePosition id0 symbol0 t c s)))
    = map id (positions (closePosition id0 symbol0 t c s)).
Proof.
  split; [|apply tick_ids].
  cbn [closePosition tick positions]. now apply filter_mapi_ids.
Qed.

End PageMore.

Section PageHealth.

Import Dashboard.

(** *** Health *)

Lemma runTicks_health (ds : list Draws) :
  forall s, health (runTicks ds s)
            = fold_left (fun h d => tickHealth d h) ds (health s).
Proof.
  induction ds as [|d ds IH]; intros s; [reflexivity|].
  change (runTicks (d :: ds) s) with (runTicks ds (tick d s)).
  now rewrite IH.
Qed.

Lemma health_fold (ds : list Draws) :
  forall h,
    0 <= apiRequestsRemaining h ->
    let h' := fold_left (fun h d => tickHealth d h) ds h in
    apiRequestsRemaining h'
      == Qmax 0 (apiRequestsRemaining h - inject_Z (Z.of_nat (length ds))) /\
    apiLimitMax h' = apiLimitMax h /\
    memoryUsageMB h' = memoryUsageMB h /\
    totalMemoryMB h' = totalMemoryMB h.
Proof.
  induction ds as [|d ds IH]; intros h Hq; cbv zeta.
  - cbn [fold_left length]. change (inject_Z (Z.of_nat 0)) with 0.
    repeat split. minmax_cases; lra.
  - cbn [fold_left].
    destruct (IH (tickHealth d h)) as (H1 & H2 & H3 & H4).
    { cbn [tickHealth apiRequestsRemaining]. apply Q.le_max_l. }
    cbv zeta in H1. rewrite H1, H2, H3, H4.
    cbn [tickHealth apiRequestsRemaining apiLimitMax memoryUsageMB
         totalMemoryMB].
    repeat split.
    change (length (d :: ds)) with (S (length ds)).
    rewrite inject_nat_S.
    pose proof (inject_nat_nonneg (length ds)) as Hn.
    minmax_cases; lra.
Qed.

(** X19: The API quota counts ticks.  From a state with a non-negative
    remaining quota q, after n ticks the remaining quota is max(0, q - n),
    so it never goes below zero and never grows; the quota limit and the
    two memory figures are never written. *)
Theorem X19_quota_counts_ticks (ds : list Draws) (s : DashboardData) :
  0 <= apiRequestsRemaining (health s) ->
  apiRequestsRemaining (health (runTicks ds s))
    == Qmax 0 (apiRequestsRemaining (health s)
               - inject_Z (Z.of_nat (length ds))) /\
  0 <= apiRequestsRemaining (health (runTicks ds s)) /\
  apiRequestsRemaining (health (runTicks ds s))
    <= apiRequestsRemaining (health s) /\
  apiLimitMax (health (runTicks ds s)) = apiLimitMax (health s) /\
  memoryUsageMB (health (runTicks ds s)) = memoryUsageMB (health s) /\
  totalMemoryMB (health (runTicks ds s)) = totalMemoryMB (health s).
Proof.
  intros Hq. rewrite runTicks_health.
  destruct (health_fold ds (health s) Hq) as (H1 & H2 & H3 & H4).
  cbv zeta in H1.
  pose proof (inject_nat_nonneg (length ds)) as Hn.
  split; [exact H1|].
  split; [rewrite H1; minmax_cases; lra|].
  split; [rewrite H1; minmax_cases; lra|].
  now repeat split.
Qed.

Lemma X19_quota_counts_ticks_witness :
  let s := initialData "t1" "t2" in
  let ds := repeat quiet 2000 in
  0 <= apiRequestsRemaining (health s) /\
  apiRequestsRemaining (health (runTicks ds s)) == 0.
Proof.
  intros s ds.
  assert (H : 0 <= apiRequestsRemaining (health s))
    by (vm_compute; discriminate).
  split; [exact H|].
  destruct (X19_quota_counts_ticks ds s H) as (Heq & _).
  rewrite Heq. unfold ds. rewrite repeat_length. reflexivity.
Defined.

(** X20: The latency walk.  For every value [Math.random()] can return,
    the new latency is a whole number of milliseconds, at least 20, more
    than 21 below and less than 20 above the old one (unless the floor of
    20 applies); so a tick from a latency of at most 280 ms always gives
    ALIVE and a tick from at least 321 ms always gives DEGRADED. *)
Theorem X20_latency_walk (d : Draws) (s : DashboardData) :
  unit_draw (rLatency d) ->
  20 <= latencyMs (health (tick d s)) /\
  (exists z : Z, latencyMs (health (tick d s)) == inject_Z z) /\
  latencyMs (health s) - 21 < latencyMs (health (tick d s)) /\
  latencyMs (health (tick d s)) <= Qmax 20 (latencyMs (health s) + 20) /\
  (latencyMs (health s) <= 280 -> status (health (tick d s)) = ALIVE) /\
  (321 <= latencyMs (health s) -> status (health (tick d s)) = DEGRADED).
Proof.
  intros [Hr0 Hr1].
  cbn [tick health tickHealth latencyMs status]. unfold newLatency.
  set (x := latencyMs (health s) + (rLatency d - 0.5) * 40).
  pose proof (Qfloor_le x) as Hfl.
  pose proof (Qlt_floor x) as Hlt.
  assert (Hfl1 : inject_Z (Qfloor x + 1) == inject_Z (Qfloor x) + 1)
    by (rewrite inject_Z_plus; reflexivity).
  rewrite Hfl1 in Hlt.
  assert (Hx1 : latencyMs (health s) - 20 <= x) by (unfold x; lra).
  assert (Hx2 : x < latencyMs (health s) + 20) by (unfold x; lra).
  clearbody x.
  split; [apply Q.le_max_l|].
  split.
  { destruct (Q.max_spec 20 (inject_Z (Qfloor x))) as [[_ H]|[_ H]].
    - now exists (Qfloor x).
    - exists 20%Z. exact H. }
  split; [minmax_cases; lra|].
  split; [minmax_cases; lra|].
  split; intros Hl; cmp_cases; try reflexivity; exfalso;
    revert E; minmax_cases; intros; lra.
Qed.

Lemma X20_latency_walk_witness :
  let s := initialData "t1" "t2" in
  unit_draw (rLatency chatty) /\
  20 <= latencyMs (health (tick chatty s)) /\
  status (health (tick chatty s)) = ALIVE.
Proof.
  intros s.
  assert (H : unit_draw (rLatency chatty))
    by (split; vm_compute; discriminate || reflexivity).
  split; [exact H|].
  destruct (X20_latency_walk chatty s H) as (H20 & _ & _ & _ & Ha & _).
  split; [exact H20|]. apply Ha. vm_compute. discriminate.
Defined.

(** X21: What the header shows after a tick.  The status light is green
    exactly when the new latency is at most 300 ms and orange otherwise,
    never red; the latency figure is green only below 100 ms, so between
    100 and 300 ms a red figure stands beside a green light. *)
Theorem X21_header_after_tick (d : Draws) (s : DashboardData) :
  let h := health (tick d s) in
  (StatusDot (statusName (status h)) = "#00D26A"%string
     <-> latencyMs h <= 300) /\
  (StatusDot (statusName (status h)) = "#FFA500"%string
     <-> 300 < latencyMs h) /\
  StatusDot (statusName (status h)) <> "#FF3737"%string /\
  (latencyClass h = "text-green-500"%string <-> latencyMs h < 100) /\
  (100 <= latencyMs h -> latencyMs h <= 300 ->
     latencyClass h = "text-red-500"%string /\
     StatusDot (statusName (status h)) = "#00D26A"%string).
Proof.
  cbv zeta. unfold latencyClass.
  cbn [tick health tickHealth latencyMs status].
  generalize (newLatency d (health s)). intros l.
  cmp_cases; cbn; repeat split; intros; try discriminate;
    try reflexivity; try lra; exfalso; lra.
Qed.

End PageHealth.

Section PagePositions.

Import Dashboard.

(** *** Price histories *)

Lemma finite8_shape (h : list sample) :
  finite8 h = true ->
  exists x0 x1 x2 x3 x4 x5 x6 x7 : Q,
    h = [Some x0; Some x1; Some x2; Some x3; Some x4; Some x5; Some x6;
         Some x7].
Proof.
  unfold finite8. intros H. apply andb_true_iff in H.
  destruct H as [Hlen Hall]. apply Nat.eqb_eq in Hlen.
  destruct h as [|[x0|] [|[x1|] [|[x2|] [|[x3|] [|[x4|] [|[x5|] [|[x6|]
    [|[x7|] [|y h]]]]]]]]]; try discriminate Hlen; try discriminate Hall.
  now exists x0, x1, x2, x3, x4, x5, x6, x7.
Qed.



Lemma mapi_In {A B : Type} (f : nat -> A -> B) (l : list A) :
  forall k y, In y (mapi f k l) -> exists i x, In x l /\ y = f i x.
Proof.
  induction l as [|x l IH]; intros k y H; [contradiction|].
  cbn in H. destruct H as [H|H].
  - exists k, x. split; [now left | now symmetry].
  - destruct (IH _ _ H) as (i & x' & Hx & Hy).
    exists i, x'. split; [now right | exact Hy].
Qed.

Lemma tickPosition_finite8 (r : Q * Q) (pos : Position) :
  finite8 (priceHistory pos) = true ->
  finite8 (priceHistory (tickPosition r pos)) = true.
Proof.
  intros Hf.
  destruct (finite8_shape _ Hf) as (x0&x1&x2&x3&x4&x5&x6&x7&Hh).
  cbn [tickPosition priceHistory]. rewrite Hh. reflexivity.
Qed.

(** X23: Well-formed histories stay well-formed.  If every position of a
    state has a history of eight finite samples, as the initial state
    has, then so has every position after any run of ticks: no NaN ever
    enters a sparkline. *)
Theorem X23_histories_stay_finite (ds : list Draws) (s : DashboardData) :
  (forall p, In p (positions s) -> finite8 (priceHistory p) = true) ->
  forall p, In p (positions (runTicks ds s)) ->
            finite8 (priceHistory p) = true.
Proof.
  intros H0. induction ds as [|d ds IH] using rev_ind; [exact H0|].
  rewrite runTicks_snoc. cbn [tick positions]. intros p Hp.
  apply mapi_In in Hp. destruct Hp as (i & q & Hq & ->).
  apply tickPosition_finite8. now apply IH.
Qed.

Lemma X23_histories_stay_finite_witness :
  let s := initialData "t1" "t2" in
  (forall p, In p (positions s) -> finite8 (priceHistory p) = true) /\
  forall p, In p (positions (runTicks (repeat chatty 5) s)) ->
            finite8 (priceHistory p) = true.
Proof.
  intros s.
  assert (H : forall p, In p (positions s) ->
                        finite8 (priceHistory p) = true).
  { intros p Hp. cbn in Hp.
    destruct Hp as [<-|[<-|[<-|[]]]]; reflexivity. }
  split; [exact H|].
  exact (X23_histories_stay_finite (repeat chatty 5) s H).
Defined.

(** X24: A history shorter than eight samples has no element at index 7,
    so the tick appends NaN: the new history ends in NaN, is not
    well-formed, and an empty history grows to the single sample NaN. *)
Theorem X24_short_history_gets_nan (r : Q * Q) (pos : Position) :
  (length (priceHistory pos) < 8)%nat ->
  priceHistory (tickPosition r pos) = tl (priceHistory pos) ++ [None] /\
  last (priceHistory (tickPosition r pos)) (Some 0) = None /\
  finite8 (priceHistory (tickPosition r pos)) = false /\
  length (priceHistory (tickPosition r pos))
    = Nat.max 1 (length (priceHistory pos)).
Proof.
  intros Hlen. cbn [tickPosition priceHistory]. unfold nextSample.
  assert (Hnone : nth_error (priceHistory pos) 7 = None)
    by (apply nth_error_None; lia).
  rewrite Hnone. split; [reflexivity|].
  split; [apply last_last|].
  split.
  - unfold finite8. apply andb_false_iff. right.
    rewrite forallb_app. cbn. apply andb_false_r.
  - rewrite length_app, tl_length. cbn [length]. lia.
Qed.

Lemma X24_short_history_gets_nan_witness :
  let pos :=
    {| id := "4"; symbol := "XRP/USD"; side := SHORT; pnl := 0;
       entryPrice := 1; markPrice := 1; zScore := 0;
       durationMinutes := 0; maxDurationMinutes := 30;
       priceHistory := [] |} in
  (length (priceHistory pos) < 8)%nat /\
  priceHistory (tickPosition (0.5, 0.5) pos) = [None].
Proof.
  intros pos.
  assert (H : (length (priceHistory pos) < 8)%nat) by (cbn; lia).
  split; [exact H|].
  destruct (X24_short_history_gets_nan (0.5, 0.5) pos H) as (Heq & _).
  rewrite Heq. reflexivity.
Defined.

(** *** Staleness under ticks *)

Lemma mapi_map_const {B : Type} (g : Position -> B)
    (f : nat -> Position -> Position) (l : list Position) :
  (forall i p, g (f i p) = g p) ->
  forall k, map g (mapi f k l) = map g l.
Proof.
  intros Hf. induction l as [|p l IH]; intros k; cbn; [reflexivity|].
  now rewrite Hf, IH.
Qed.

(** X25: Ticking never makes a position stale.  After any run of ticks
    every position has the duration, the limit, the stale flag and the
    bar width it had before. *)
Theorem X25_ticks_never_change_staleness (ds : list Draws)
    (s : DashboardData) :
  map durationMinutes (positions (runTicks ds s))
    = map durationMinutes (positions s) /\
  map maxDurationMinutes (positions (runTicks ds s))
    = map maxDurationMinutes (positions s) /\
  map isStale (positions (runTicks ds s)) = map isStale (positions s) /\
  map progress (positions (runTicks ds s)) = map progress (positions s).
Proof.
  induction ds as [|d ds IH] using rev_ind; [now repeat split|].
  rewrite runTicks_snoc. cbn [tick positions].
  destruct IH as (H1 & H2 & H3 & H4).
  rewrite <- H1, <- H2, <- H3, <- H4.
  repeat split; now apply mapi_map_const.
Qed.

(** X26: The bar of a position.  With a positive limit and a non-negative
    duration the bar width is between 0% and 100%; it is exactly 100% as
    soon as the duration reaches the limit, one step before the position
    counts as stale, and a stale position always has a full bar. *)
Theorem X26_progress_bar_bounds (pos : Position) :
  0 < maxDurationMinutes pos ->
  0 <= durationMinutes pos ->
  0 <= progress pos /\ progress pos <= 100 /\
  (progress pos == 100
     <-> maxDurationMinutes pos <= durationMinutes pos) /\
  (isStale pos = true -> progress pos == 100) /\
  (durationMinutes pos == maxDurationMinutes pos ->
     isStale pos = false /\ progress pos == 100).
Proof.
  intros Hm Hd. unfold progress, isStale.
  set (q := durationMinutes pos / maxDurationMinutes pos).
  assert (Hq0 : 0 <= q).
  { unfold q. apply Qle_shift_div_l; [exact Hm | lra]. }
  assert (Hq1 : 1 <= q <-> maxDurationMinutes pos <= durationMinutes pos).
  { unfold q. split; intros H.
    - apply Qnot_lt_le. intros Hlt.
      assert (durationMinutes pos / maxDurationMinutes pos < 1)
        by (apply Qlt_shift_div_r; [exact Hm | lra]).
      lra.
    - apply Qle_shift_div_l; [exact Hm | lra]. }
  clearbody q.
  split; [minmax_cases; lra|]. split; [minmax_cases; lra|].
  split.
  { rewrite <- Hq1. minmax_cases; split; intros; lra. }
  split.
  { intros Hs. apply Qgtb_iff in Hs.
    assert (1 <= q) by (apply Hq1; lra). minmax_cases; lra. }
  intros He. split; [apply Qgtb_false_iff; lra|].
  assert (1 <= q) by (apply Hq1; lra). minmax_cases; lra.
Qed.

Lemma X26_progress_bar_bounds_witness :
  let pos :=
    {| id := "2"; symbol := "ETH/USD"; side := SHORT; pnl := -120.50;
       entryPrice := 3400; markPrice := 3420; zScore := 1.8;
       durationMinutes := 180; maxDurationMinutes := 60;
       priceHistory := [] |} in
  0 < maxDurationMinutes pos /\ 0 <= durationMinutes pos /\
  progress pos == 100.
Proof.
  intros pos.
  assert (Hm : 0 < maxDurationMinutes pos) by reflexivity.
  assert (Hd : 0 <= durationMinutes pos) by (vm_compute; discriminate).
  split; [exact Hm|]. split; [exact Hd|].
  destruct (X26_progress_bar_bounds pos Hm Hd) as (_ & _ & _ & Hs & _).
  apply Hs. reflexivity.
Defined.

End PagePositions.

Section PageRender.

Import Dashboard.

(** *** The sparkline *)

Lemma foldmin_le (l : list Q) :
  forall a, fold_left Qmin l a <= a /\
            (forall x, In x l -> fold_left Qmin l a <= x).
Proof.
  induction l as [|y l IH]; intros a; cbn [fold_left].
  - split; [lra | contradiction].
  - destruct (IH (Qmin a y)) as [H1 H2].
    pose proof (Q.le_min_l a y). pose proof (Q.le_min_r a y).
    split; [lra|]. intros x [<-|Hx]; [lra | now apply H2].
Qed.

Lemma foldmax_ge (l : list Q) :
  forall a, a <= fold_left Qmax l a /\
            (forall x, In x l -> x <= fold_left Qmax l a).
Proof.
  induction l as [|y l IH]; intros a; cbn [fold_left].
  - split; [lra | contradiction].
  - destruct (IH (Qmax a y)) as [H1 H2].
    pose proof (Q.le_max_l a y). pose proof (Q.le_max_r a y).
    split; [lra|]. intros x [<-|Hx]; [lra | now apply H2].
Qed.

Lemma spark_between (v0 : Q) (rest : list Q) (val : Q) :
  In val (v0 :: rest) ->
  sparkMin v0 rest <= val /\ val <= sparkMax v0 rest.
Proof.
  intros [<-|H]; unfold sparkMin, sparkMax.
  - split; [apply (proj1 (foldmin_le rest v0))
           | apply (proj1 (foldmax_ge rest v0))].
  - split; [now apply foldmin_le | now apply foldmax_ge].
Qed.

Lemma sparkRange_pos (mn mx : Q) : mn <= mx -> 0 < sparkRange mn mx.
Proof.
  intros H. unfold sparkRange.
  destruct (Qeq_bool (mx - mn) 0) eqn:E; [reflexivity|].
  apply Qeq_bool_neq in E.
  destruct (Qlt_le_dec 0 (mx - mn)) as [Hlt|Hle]; [exact Hlt|].
  exfalso. apply E. lra.
Qed.

Lemma sparkRange_cases (mn mx : Q) :
  (mx - mn == 0 /\ sparkRange mn mx = 1) \/
  (~ mx - mn == 0 /\ sparkRange mn mx = mx - mn).
Proof.
  unfold sparkRange. destruct (Qeq_bool (mx - mn) 0) eqn:E.
  - left. split; [now apply Qeq_bool_iff | reflexivity].
  - right. split; [now apply Qeq_bool_neq | reflexivity].
Qed.

(** X27: The sparkline stays inside its 30-unit-high view box.  Every
    sample of a series of at least two samples is drawn at a height y
    with 0 <= y <= 30; a sample equal to the minimum is drawn on the bottom
    line y = 30, a sample equal to the maximum of a series that is not
    flat on the top line y = 0, and every sample of a flat series on the
    bottom line, the zero range being replaced by 1. *)
Theorem X27_sparkline_height (v0 : Q) (rest : list Q) (i : nat) (val : Q) :
  (2 <= length (v0 :: rest))%nat ->
  nth_error (v0 :: rest) i = Some val ->
  exists x y : Q,
    nth_error (sparkPoints (v0 :: rest)) i = Some (x, y) /\
    0 <= y /\ y <= 30 /\
    (val == sparkMin v0 rest -> y == 30) /\
    (val == sparkMax v0 rest -> sparkMin v0 rest < sparkMax v0 rest ->
       y == 0) /\
    (sparkMin v0 rest == sparkMax v0 rest -> y == 30).
Proof.
  intros _ Hi. unfold sparkPoints. rewrite mapi_nth_error, Hi.
  cbn [option_map Nat.add].
  eexists. eexists. split; [reflexivity|].
  destruct (spark_between v0 rest val (nth_error_In _ _ Hi)) as [Hlo Hhi].
  set (mn := sparkMin v0 rest) in *. set (mx := sparkMax v0 rest) in *.
  assert (Hmm : mn <= mx) by lra.
  pose proof (sparkRange_pos mn mx Hmm) as Hpos.
  assert (Ht0 : 0 <= (val - mn) / sparkRange mn mx).
  { apply Qle_shift_div_l; [exact Hpos | lra]. }
  assert (Ht1 : (val - mn) / sparkRange mn mx <= 1).
  { apply Qle_shift_div_r; [exact Hpos|].
    destruct (sparkRange_cases mn mx) as [[Hz ->]|[Hz ->]]; lra. }
  split; [lra|]. split; [lra|].
  split; [|split].
  - intros He.
    assert (Hz : (val - mn) / sparkRange mn mx == 0).
    { setoid_replace (val - mn) with 0 by lra.
      unfold Qdiv. ring. }
    rewrite Hz. ring.
  - intros He Hlt.
    destruct (sparkRange_cases mn mx) as [[Hz _]|[Hz ->]]; [lra|].
    assert (H1 : (val - mn) / (mx - mn) == 1).
    { setoid_replace (val - mn) with (mx - mn) by lra.
      field. exact Hz. }
    rewrite H1. ring.
  - intros He.
    assert (Hz : (val - mn) / sparkRange mn mx == 0).
    { setoid_replace (val - mn) with 0 by lra.
      unfold Qdiv. ring. }
    rewrite Hz. ring.
Qed.

Lemma X27_sparkline_height_witness :
  let rest := [144; 146; 145; 147; 146; 147; 148] in
  (2 <= length (145%Q :: rest))%nat /\
  nth_error (145 :: rest) 1 = Some 144 /\
  exists x y : Q,
    nth_error (sparkPoints (145 :: rest)) 1 = Some (x, y) /\ y == 30.
Proof.
  intros rest.
  assert (Hn : (2 <= length (145%Q :: rest))%nat) by (cbn; lia).
  assert (H : nth_error (145 :: rest) 1 = Some 144) by reflexivity.
  split; [exact Hn|]. split; [exact H|].
  destruct (X27_sparkline_height 145 rest 1 144 Hn H)
    as (x & y & Hp & _ & _ & Hmin & _).
  exists x, y. split; [exact Hp|]. apply Hmin. reflexivity.
Defined.

(** X28: The sparkline spans its 100-unit-wide view box.  A series of at
    least two samples has as many points as samples; the point of sample
    i is at x = i / (n - 1) * 100, between 0 and 100, the first at 0 and
    the last at 100. *)
Theorem X28_sparkline_width (data : list Q) (i : nat) (p : Q * Q) :
  (2 <= length data)%nat ->
  nth_error (sparkPoints data) i = Some p ->
  length (sparkPoints data) = length data /\
  fst p == inject_Z (Z.of_nat i)
           / (inject_Z (Z.of_nat (length data)) - 1) * 100 /\
  0 <= fst p /\ fst p <= 100 /\
  (i = 0%nat -> fst p == 0) /\
  (S i = length data -> fst p == 100).
Proof.
  intros Hn Hp. destruct data as [|v0 rest]; [cbn in Hn; lia|].
  unfold sparkPoints in *. rewrite mapi_length.
  rewrite mapi_nth_error in Hp. cbn [Nat.add] in Hp.
  destruct (nth_error (v0 :: rest) i) as [val|] eqn:Ei;
    [|discriminate Hp].
  assert (Hi : (i < length (v0 :: rest))%nat)
    by (apply nth_error_Some; congruence).
  cbn [option_map] in Hp.
  apply (f_equal (fun o => match o with Some q => fst q | None => 0 end))
    in Hp.
  cbn [fst] in Hp. rewrite <- Hp. clear Hp.
  set (n := length (v0 :: rest)) in *.
  assert (Hn1 : 0 < inject_Z (Z.of_nat n) - 1).
  { apply inject_nat_le in Hn. change (inject_Z (Z.of_nat 2)) with 2 in Hn.
    lra. }
  assert (Hi0 : 0 <= inject_Z (Z.of_nat i)) by apply inject_nat_nonneg.
  assert (Hi1 : inject_Z (Z.of_nat i) <= inject_Z (Z.of_nat n) - 1).
  { assert (H : (S i <= n)%nat) by lia.
    apply inject_nat_le in H. rewrite inject_nat_S in H. lra. }
  assert (Hq0 : 0 <= inject_Z (Z.of_nat i) / (inject_Z (Z.of_nat n) - 1)).
  { apply Qle_shift_div_l; [exact Hn1 | lra]. }
  assert (Hq1 : inject_Z (Z.of_nat i) / (inject_Z (Z.of_nat n) - 1) <= 1).
  { apply Qle_shift_div_r; [exact Hn1 | lra]. }
  split; [reflexivity|]. split; [reflexivity|].
  split; [revert Hq0;
          generalize (inject_Z (Z.of_nat i) / (inject_Z (Z.of_nat n) - 1));
          intros; lra|].
  split; [revert Hq1;
          generalize (inject_Z (Z.of_nat i) / (inject_Z (Z.of_nat n) - 1));
          intros; lra|].
  split.
  - intros ->. change (inject_Z (Z.of_nat 0)) with 0. unfold Qdiv. ring.
  - intros Hlast.
    assert (He : inject_Z (Z.of_nat i) == inject_Z (Z.of_nat n) - 1).
    { rewrite <- Hlast, inject_nat_S. ring. }
    rewrite He. field. lra.
Qed.

Lemma X28_sparkline_width_witness :
  let data := [145; 144; 146; 145; 147; 146; 147; 148] in
  exists p : Q * Q,
    (2 <= length data)%nat /\
    nth_error (sparkPoints data) 7 = Some p /\ fst p == 100.
Proof.
  intros data.
  assert (Hn : (2 <= length data)%nat) by (cbn; lia).
  destruct (nth_error (sparkPoints data) 7) as [p|] eqn:E;
    [|discriminate E].
  exists p. split; [exact Hn|]. split; [reflexivity|].
  destruct (X28_sparkline_width data 7 p Hn E) as (_ & _ & _ & _ & _ & Hl).
  apply Hl. reflexivity.
Defined.

(** *** The log drawer *)

Lemma lastLog_snoc (l : list LogMessage) (e : LogMessage) :
  lastLog (l ++ [e]) = Some e.
Proof.
  unfold lastLog. rewrite length_app. cbn [length].
  replace (length l + 1 - 1)%nat with (length l) by lia.
  rewrite nth_error_app2 by lia. now rewrite Nat.sub_diag.
Qed.

Lemma lastLog_pushShift (l : list LogMessage) (e : LogMessage) :
  lastLog (pushShift l e) = Some e /\ (0 < length (pushShift l e))%nat.
Proof.
  unfold pushShift.
  destruct (Nat.ltb_spec 50 (length (l ++ [e]))) as [Hgt|Hle].
  - destruct l as [|x l]; [cbn in Hgt; lia|].
    cbn [app tl]. split; [apply lastLog_snoc|].
    rewrite length_app. cbn. lia.
  - split; [apply lastLog_snoc|]. rewrite length_app. cbn. lia.
Qed.

(** X29: The closed drawer after a liquidation.  Right after
    [closePosition] the newest log entry is its WARN entry, so the handle
    pulses yellow and the drawer's line reads the liquidation message,
    whatever the log held before and whether or not the id was in the
    book. *)
Theorem X29_drawer_after_liquidation (id0 symbol0 : string) (t : Z)
    (c : string) (s : DashboardData) :
  lastLog (logs (closePosition id0 symbol0 t c s))
    = Some (closeEntry symbol0 t c) /\
  drawerWarn (closePosition id0 symbol0 t c s) = true /\
  drawerLine (closePosition id0 symbol0 t c s)
    = ("> [" ++ c ++ "] " ++ "MANUAL LIQUIDATION: " ++ symbol0
       ++ " CLOSED")%string.
Proof.
  assert (H : lastLog (logs (closePosition id0 symbol0 t c s))
              = Some (closeEntry symbol0 t c)).
  { cbn [closePosition logs]. apply lastLog_snoc. }
  assert (Hlen : (0 <? length (logs (closePosition id0 symbol0 t c s)))%nat
                 = true).
  { apply Nat.ltb_lt. rewrite closePosition_logs_length. lia. }
  split; [exact H|]. unfold drawerWarn, drawerLine.
  rewrite H, Hlen. split; reflexivity.
Qed.

(** X30: The closed drawer after a logging tick.  When the tick's log gate
    opens, the newest entry is the tick's INFO entry, also when the oldest
    entry was evicted to make room: the handle stops pulsing and the line
    reads the picked message. *)
Theorem X30_drawer_after_logging_tick (d : Draws) (s : DashboardData) :
  logGate d = true ->
  lastLog (logs (tick d s)) = Some (tickEntry d) /\
  drawerWarn (tick d s) = false /\
  drawerLine (tick d s)
    = ("> [" ++ clock d ++ "] " ++ pickMsg (rMsg d))%string.
Proof.
  intros Hg.
  assert (Hl : logs (tick d s) = pushShift (logs s) (tickEntry d)).
  { cbn [tick logs]. unfold tickLogs. unfold logGate in Hg.
    now rewrite Hg. }
  destruct (lastLog_pushShift (logs s) (tickEntry d)) as [H Hlen].
  apply Nat.ltb_lt in Hlen.
  unfold drawerWarn, drawerLine. rewrite Hl, H, Hlen.
  repeat split.
Qed.

Lemma X30_drawer_after_logging_tick_witness :
  let s := closePosition "1" "BTC/USD" 0 "t3" (initialData "t1" "t2") in
  logGate chatty = true /\
  drawerWarn s = true /\
  drawerWarn (tick chatty s) = false.
Proof.
  intros s.
  assert (H : logGate chatty = true) by reflexivity.
  split; [exact H|]. split; [reflexivity|].
  apply (X30_drawer_after_logging_tick chatty s H).
Defined.

End PageRender.
